(** * Workout bot: scheduling, time conversion and the daily-log rules

    Shallow embedding of [app/time_utils.py], [app/scheduler.py],
    [app/database.py] (the [daily_logs] and [users] operations) and the
    handlers of [app/bot.py] that drive them.

    Conventions of the model.
    - An instant (an aware UTC [datetime]) is a [Z] count of seconds since
      1970-01-01T00:00:00Z; a calendar date is a [Z] count of days since
      1970-01-01, so [date.isoformat()] keys become day numbers.
    - Python exceptions are the constructors of [exc]; an operation that
      may raise returns [result]; stateful code runs in [ST], a state
      monad with exceptions in which writes done before a raise persist,
      as SQLite commits each [get_conn] block on its own.
    - Clock readings ([datetime.now], [date.today]) and [random.randint]
      are explicit arguments. *)

From Stdlib Require Import ZArith List String Ascii Bool Lia Sorted Permutation.
From Stdlib Require ListDec.
From stdpp Require Import base gmap strings.
Import ListNotations.
Open Scope string_scope.
Open Scope Z_scope.

(** ** Python values, exceptions and the effect monad *)
Module Py.

Inductive exc :=
| AttributeError
| ValueError
| IndexError
| KeyError
| ZoneInfoNotFoundError
| TelegramForbiddenError
| TelegramBadRequest
| TelegramNetworkError.

Global Instance exc_eq_dec : EqDecision exc.
Proof. solve_decision. Defined.

Inductive result (A : Type) :=
| Ok (a : A)
| Raise (e : exc).
Arguments Ok {A} a.
Arguments Raise {A} e.

Definition rbind {A B} (r : result A) (k : A -> result B) : result B :=
  match r with Ok a => k a | Raise e => Raise e end.

(** State passing with exceptions: the state reached before a raise is
    kept. *)
Definition ST (S A : Type) := S -> result A * S.

Definition ret {S A} (a : A) : ST S A := fun s => (Ok a, s).
Definition raise {S A} (e : exc) : ST S A := fun s => (Raise e, s).
Definition lift {S A} (r : result A) : ST S A := fun s => (r, s).
Definition bind {S A B} (m : ST S A) (k : A -> ST S B) : ST S B :=
  fun s => match m s with
           | (Ok a, s') => k a s'
           | (Raise e, s') => (Raise e, s')
           end.

Notation "'let!' x := m 'in' k" := (bind m (fun x => k))
  (at level 200, x name, m at level 100, k at level 200).
Notation "'do!' m ; k" := (bind m (fun _ => k))
  (at level 200, m at level 100, k at level 200).

(** The dynamically typed values the scheduler passes around: a [str]
    or an aware [datetime]. *)
Inductive pyval :=
| PyStr (s : string)
| PyDatetime (t : Z).

Definition truthy_val (v : pyval) : bool :=
  match v with PyStr s => negb (String.eqb s "") | PyDatetime _ => true end.

(** [str.split(sep)] for a one-character separator. *)
Fixpoint split_on (sep : ascii) (s : string) : list string :=
  match s with
  | EmptyString => [EmptyString]
  | String c r =>
      if Ascii.eqb c sep then EmptyString :: split_on sep r
      else match split_on sep r with
           | [] => [String c EmptyString]
           | x :: xs => String c x :: xs
           end
  end.

(** [v.split(":")]: a [datetime] has no [split] attribute. *)
Definition py_split (v : pyval) (sep : ascii) : result (list string) :=
  match v with
  | PyStr s => Ok (split_on sep s)
  | PyDatetime _ => Raise AttributeError
  end.

Definition digit (c : ascii) : option Z :=
  let n := nat_of_ascii c in
  if (48 <=? n)%nat && (n <=? 57)%nat then Some (Z.of_nat n - 48) else None.

Fixpoint digits_val (s : string) (acc : Z) : option Z :=
  match s with
  | EmptyString => Some acc
  | String c r =>
      match digit c with Some d => digits_val r (10 * acc + d) | None => None end
  end.

(** [int(s)] on strings of ASCII decimal digits. The sign, surrounding
    whitespace, underscores and non-ASCII digits that [int] also accepts
    are not modelled: such strings raise [ValueError] here. *)
Definition py_int (s : string) : result Z :=
  match s with
  | EmptyString => Raise ValueError
  | _ => match digits_val s 0 with Some n => Ok n | None => Raise ValueError end
  end.

(** [a, b = map(int, parts)]: exactly two integer parts. *)
Definition unpack_two_ints (parts : list string) : result (Z * Z) :=
  match parts with
  | [a; b] => rbind (py_int a) (fun x => rbind (py_int b) (fun y => Ok (x, y)))
  | _ => Raise ValueError
  end.

(** [a, b = t] for a tuple [t]: anything but two items raises
    [ValueError]. *)
Definition unpack2 {A} (t : list A) : result (A * A) :=
  match t with [a; b] => Ok (a, b) | _ => Raise ValueError end.

End Py.
Import Py.

(** ** [app/time_utils.py] *)
Module TimeUtils.

Definition DAY : Z := 86400.

(** A zoneinfo zone: the offset before the first transition, then the
    sorted transitions [(utc_instant, new_offset)], offsets in seconds. *)
Record zone := { tz_initial : Z; tz_transitions : list (Z * Z) }.

(** [fromutc]: offset of the last transition at or before [u]
    ([bisect_right] on the UTC transition list). *)
Fixpoint offset_at_utc (prev : Z) (ts : list (Z * Z)) (u : Z) : Z :=
  match ts with
  | [] => prev
  | (t, o) :: r => if t <=? u then offset_at_utc o r u else prev
  end.

(** [utcoffset()] of a wall time with [fold = 0]: zoneinfo places each
    transition on the wall clock at [t + max old new], so a skipped or
    repeated wall time keeps the offset from before the transition. *)
Fixpoint offset_at_wall (prev : Z) (ts : list (Z * Z)) (w : Z) : Z :=
  match ts with
  | [] => prev
  | (t, o) :: r => if t + Z.max prev o <=? w then offset_at_wall o r w else prev
  end.

Definition utcoffset_utc (z : zone) (u : Z) : Z :=
  offset_at_utc (tz_initial z) (tz_transitions z) u.
Definition utcoffset_wall (z : zone) (w : Z) : Z :=
  offset_at_wall (tz_initial z) (tz_transitions z) w.

(** Days from 1970-01-01 to the proleptic Gregorian date [(y, m, d)]. *)
Definition days_from_civil (y m d : Z) : Z :=
  let y' := if m <=? 2 then y - 1 else y in
  let era := y' / 400 in
  let yoe := y' - era * 400 in
  let mp := if 2 <? m then m - 3 else m + 9 in
  let doy := (153 * mp + 2) / 5 + d - 1 in
  let doe := yoe * 365 + yoe / 4 - yoe / 100 + doy in
  era * 146097 + doe - 719468.

(** The weekday of a day number, 0 for Sunday (1970-01-01 was a Thursday). *)
Definition weekday (days : Z) : Z := (days + 4) mod 7.
Definition sunday_on_or_after (days : Z) : Z := days + (7 - weekday days) mod 7.
Definition sunday_on_or_before (days : Z) : Z := days - weekday days.

(** The tz database's US rule since 2007, for [n] years from [y]: EDT
    from the second Sunday of March at 2:00 EST (07:00Z), EST from the
    first Sunday of November at 2:00 EDT (06:00Z). *)
Fixpoint us_transitions (y : Z) (n : nat) : list (Z * Z) :=
  match n with
  | O => []
  | S n' =>
      (sunday_on_or_after (days_from_civil y 3 8) * DAY + 7 * 3600, -14400) ::
      (sunday_on_or_after (days_from_civil y 11 1) * DAY + 6 * 3600, -18000) ::
      us_transitions (y + 1) n'
  end.

(** The tz database's Russia rule of 1996-2010, for [n] years from [y]:
    MSD (+4) from the last Sunday of March and MSK (+3) from the last
    Sunday of October, both at 2:00 standard time (23:00Z the day
    before). *)
Fixpoint russia_transitions (y : Z) (n : nat) : list (Z * Z) :=
  match n with
  | O => []
  | S n' =>
      (sunday_on_or_before (days_from_civil y 3 31) * DAY - 3600, 14400) ::
      (sunday_on_or_before (days_from_civil y 10 31) * DAY - 3600, 10800) ::
      russia_transitions (y + 1) n'
  end.

(** Europe/Moscow from 1996: the Russia rule up to 2010, permanent +4
    from 2011-03-27 2:00s, +3 from 2014-10-26 2:00s (22:00Z the day
    before). The zone's transitions before 1996 are not modelled. *)
Definition moscow : zone :=
  {| tz_initial := 10800;
     tz_transitions :=
       (russia_transitions 1996 15 ++
        [(sunday_on_or_before (days_from_civil 2011 3 31) * DAY - 3600, 14400);
         (days_from_civil 2014 10 26 * DAY - 7200, 10800)])%list |}.

Definition utc_zone : zone := {| tz_initial := 0; tz_transitions := [] |}.

(** America/New_York under the US rule from 2007 through 2100. The
    zone's transitions before 2007 are not modelled. *)
Definition new_york : zone :=
  {| tz_initial := -18000; tz_transitions := us_transitions 2007 94 |}.

(** [ZoneInfo(name)] for the three zones the development uses. Python
    resolves every other IANA name from the tz database; those zones are
    not modelled, and they raise [ZoneInfoNotFoundError] here. *)
Definition ZoneInfo (name : string) : result zone :=
  if String.eqb name "Europe/Moscow" then Ok moscow
  else if String.eqb name "UTC" then Ok utc_zone
  else if String.eqb name "America/New_York" then Ok new_york
  else Raise ZoneInfoNotFoundError.

(** [timezone or "Europe/Moscow"] *)
Definition tz_name_or_default (timezone : option string) : string :=
  match timezone with
  | Some s => if String.eqb s "" then "Europe/Moscow" else s
  | None => "Europe/Moscow"
  end.

(** [dt.time.fromisoformat] on the two-digit "HH:MM" form, as seconds
    after midnight. The other forms Python accepts ("HH", "HH:MM:SS",
    fractions, offsets, "HHMM") are not modelled: they raise [ValueError]
    here. *)
Definition time_fromisoformat (s : string) : result Z :=
  match split_on ":" s with
  | [String h1 (String h2 EmptyString); String m1 (String m2 EmptyString)] =>
      match digit h1, digit h2, digit m1, digit m2 with
      | Some a, Some b, Some c, Some d =>
          let h := 10 * a + b in
          let m := 10 * c + d in
          if (h <? 24) && (m <? 60) then Ok (h * 3600 + m * 60) else Raise ValueError
      | _, _, _, _ => Raise ValueError
      end
  | _ => Raise ValueError
  end.

(** An aware local [datetime]: naive wall-clock seconds plus its zone. *)
Record local_dt := { naive : Z; tzinfo : zone }.

(** [_normalize_local_datetime(time_str, timezone)] with the clock reading
    [now_utc]. [candidate <= now_local] compares wall times: both
    datetimes carry the same [ZoneInfo] object. *)
Definition _normalize_local_datetime (time_str : string) (timezone : option string)
    (now_utc : Z) : result local_dt :=
  rbind (ZoneInfo (tz_name_or_default timezone)) (fun z =>
  let now_local := now_utc + utcoffset_utc z now_utc in
  rbind (time_fromisoformat time_str) (fun secs =>
  let candidate := (now_local / DAY) * DAY + secs in
  let candidate := if candidate <=? now_local then candidate + DAY else candidate in
  Ok {| naive := candidate; tzinfo := z |})).

(** [local_dt.astimezone(dt.timezone.utc)] *)
Definition astimezone_utc (d : local_dt) : Z :=
  naive d - utcoffset_wall (tzinfo d) (naive d).

Definition convert_local_time_to_utc (time_str : string) (timezone : option string)
    (now_utc : Z) : result Z :=
  rbind (_normalize_local_datetime time_str timezone now_utc) (fun local_dt =>
  Ok (astimezone_utc local_dt)).

Definition convert_range_to_utc (start end_ : string) (timezone : option string)
    (now_utc : Z) : result (Z * Z) :=
  rbind (_normalize_local_datetime start timezone now_utc) (fun start_dt =>
  rbind (time_fromisoformat end_) (fun esecs =>
  let e := (naive start_dt / DAY) * DAY + esecs in
  let e := if e <=? naive start_dt then e + DAY else e in
  Ok (astimezone_utc start_dt,
      astimezone_utc {| naive := e; tzinfo := tzinfo start_dt |}))).

End TimeUtils.
Import TimeUtils.

(** ** [app/scheduler.py] on top of APScheduler *)
Module Scheduler.

Inductive trigger :=
| CronTrigger (hour minute : Z)   (** fires every day at hour:minute UTC *)
| DateTrigger (run_date : Z).     (** fires once at [run_date] *)

(** The coroutine function built by [_wrap(chat_id, mode, start, end)]. *)
Record wrapped := {
  w_chat_id : Z;
  w_mode : string;
  w_start : option pyval;
  w_end : option pyval }.

(** A job of the scheduler; [job_id] stands for the id
    ["notify-" + str(chat_id)], which is determined by the chat id. *)
Record job := { job_id : Z; job_func : wrapped; job_trigger : trigger }.

Record WorkoutScheduler := { jobs : list job; running : bool }.

Definition _wrap (chat_id : Z) (mode : string) (start end_ : option pyval) : wrapped :=
  {| w_chat_id := chat_id; w_mode := mode; w_start := start; w_end := end_ |}.

Fixpoint replace_or_append (j : job) (l : list job) : list job :=
  match l with
  | [] => [j]
  | x :: r => if job_id x =? job_id j then j :: r else x :: replace_or_append j r
  end.

(** [scheduler.add_job(func, trigger, id=..., replace_existing=True)] *)
Definition add_job (func : wrapped) (trig : trigger) (id : Z) : ST WorkoutScheduler unit :=
  fun s => (Ok tt, {| jobs := replace_or_append {| job_id := id; job_func := func;
                                                   job_trigger := trig |} (jobs s);
                      running := running s |}).

Definition remove_job (id : Z) : ST WorkoutScheduler unit :=
  fun s => (Ok tt, {| jobs := filter (fun j => negb (job_id j =? id)) (jobs s);
                      running := running s |}).

Definition find_job (s : WorkoutScheduler) (id : Z) : option job :=
  find (fun j => job_id j =? id) (jobs s).

Definition schedule_fixed (chat_id : Z) (local_time : string) (timezone : option string)
    (now_utc : Z) : ST WorkoutScheduler unit :=
  let! utc_time := lift (convert_local_time_to_utc local_time timezone now_utc) in
  let! parts := lift (py_split (PyDatetime utc_time) ":") in
  let! hm := lift (unpack_two_ints parts) in
  add_job (_wrap chat_id "fixed" None None) (CronTrigger (fst hm) (snd hm)) chat_id.

(** [dt.time(hour, minute)] as seconds after midnight. *)
Definition dt_time (hour minute : Z) : result Z :=
  if (0 <=? hour) && (hour <? 24) && (0 <=? minute) && (minute <? 60)
  then Ok (hour * 3600 + minute * 60) else Raise ValueError.

(** The window [(start_dt, end_dt)] that [_range_job] computes from the
    boundary strings and the clock reading [now]. *)
Definition range_window (start_utc end_utc : pyval) (now : Z) : result (Z * Z) :=
  rbind (py_split start_utc ":") (fun sp => rbind (unpack_two_ints sp) (fun shm =>
  rbind (py_split end_utc ":") (fun ep => rbind (unpack_two_ints ep) (fun ehm =>
  let today := now / DAY in
  rbind (dt_time (fst shm) (snd shm)) (fun st =>
  rbind (dt_time (fst ehm) (snd ehm)) (fun et =>
  let start_dt := today * DAY + st in
  let end_dt := today * DAY + et in
  let end_dt := if end_dt <=? start_dt then end_dt + DAY else end_dt in
  if end_dt <=? now then Ok (start_dt + DAY, end_dt + DAY)
  else Ok (start_dt, end_dt))))))).

(** [_range_job(chat_id, start_utc, end_utc)]; [randint a b] is the value
    [random.randint] returns. *)
Definition _range_job (chat_id : Z) (start_utc end_utc : pyval) (now : Z)
    (randint : Z -> Z -> Z) : ST WorkoutScheduler unit :=
  let! w := lift (range_window start_utc end_utc now) in
  let span_seconds := snd w - fst w in
  if span_seconds <? 0 then raise ValueError else
  let fire_dt := fst w + randint 0 span_seconds in
  add_job (_wrap chat_id "range" (Some start_utc) (Some end_utc)) (DateTrigger fire_dt) chat_id.

Definition schedule_range (chat_id : Z) (start_local end_local : string)
    (timezone : option string) (now : Z) (randint : Z -> Z -> Z)
    : ST WorkoutScheduler unit :=
  let! w := lift (convert_range_to_utc start_local end_local timezone now) in
  _range_job chat_id (PyDatetime (fst w)) (PyDatetime (snd w)) now randint.

(** The body of the coroutine [_wrap] builds: await the callback, whose
    outcome is [callback], then re-arm a range job. *)
Definition run_wrapped (f : wrapped) (callback : result unit) (now : Z)
    (randint : Z -> Z -> Z) : ST WorkoutScheduler unit :=
  let! _ := lift callback in
  match w_mode f, w_start f, w_end f with
  | "range", Some s, Some e =>
      if truthy_val s && truthy_val e then _range_job (w_chat_id f) s e now randint
      else ret tt
  | _, _, _ => ret tt
  end.

(** APScheduler running a due job at [now]: a date-triggered job has no
    next fire time and leaves the job store before its function runs. *)
Definition fire (j : job) (callback : result unit) (now : Z) (randint : Z -> Z -> Z)
    : ST WorkoutScheduler unit :=
  do! match job_trigger j with
      | DateTrigger _ => remove_job (job_id j)
      | CronTrigger _ _ => ret tt
      end;
  run_wrapped (job_func j) callback now randint.

End Scheduler.
Import Scheduler.

(** ** [app/database.py]: the [users] and [daily_logs] operations *)
Module Database.

(** An exercise entry as stored in JSON: its name, the optional
    ["points"] weight and the optional ["done"] flag (the quantity keys are
    carried along unchanged by the code below and are not modelled). *)
Record exercise := { ex_name : string; ex_points : option Z; ex_done : option bool }.

(** [exercises_done]: the legacy flat list, or the per-session dict
    (an association list in insertion order). *)
Inductive sessions :=
| SessList (l : list exercise)
| SessDict (d : list (string * list exercise)).

(** A [daily_logs] row. [points] is never NULL: every insert goes through
    [COALESCE(?, 0)] and [add_points] through [COALESCE(points, 0)]. *)
Record daily_log := {
  exercises_done : sessions;
  difficulty_rate : option string;
  points : Z }.

Record user_row := {
  id : Z;
  chat_id : Z;
  nickname : option string;
  weight : option Z;
  height : option Z;
  age : option Z }.

(** Messages the bot sends, by the text they carry. *)
Inductive reply :=
| NoProfile             (** "Нет профиля" *)
| PlanNotFound          (** "План не найден" *)
| AdditionalCancelled   (** "Доп. тренировка отменена." *)
| AlreadyCompleted      (** "Тренировка уже завершена" *)
| DaySkipped            (** "День пропущен. Не забывай вернуться завтра!" *)
| AdditionalDone (p : Z) (** "Доп. тренировка завершена! Очки добавлены: p" *)
| WorkoutDone (p : Z)   (** "Тренировка завершена! Очки начислены: p" *)
| MenuUpdated           (** "Меню обновлено." *)
| Great                 (** "Отлично!" *)
| Updated               (** "Обновлено" *)
| Ack                   (** [callback.answer()] without text *)
| WorkoutCard (date : Z) (exs : list exercise) (session : string)
                        (** [compose_workout_text] with [exercises_keyboard] *)
| PlanUnavailable       (** "План недоступен, выполняй запасную тренировку." *)
| RestDay               (** "Сегодня отдых, восстанавливай силы!" *)
| NoSeats               (** "Мест нет. Бот работает только для двух пользователей." *)
| Greeting              (** the /start greeting *)
| ProfileLoadFailed     (** "Не удалось загрузить профиль." *)
| ProfilePrompt         (** "Давай заполним профиль. Как тебя называть?" *)
| ProfileCard.          (** [format_profile(user)] *)

(** The stored data. [plan_for_date user_id date] is what
    [get_plan_for_date] reads from [weekly_plan]: [get_plan_day]'s tuple
    [(is_rest, exercises, title)], or [None]. *)
Record DB := {
  users : list user_row;
  next_user_id : Z;
  daily_logs : gmap (Z * Z) daily_log;
  plan_for_date : Z -> Z -> option (bool * list exercise * option string) }.

(** The world a handler runs in: the database and the messages sent so
    far, as [(chat_id, reply)]. *)
Record world := { db : DB; outbox : list (Z * reply) }.

Definition M := ST world.

Definition set_db (w : world) (d : DB) : world := {| db := d; outbox := outbox w |}.
Definition with_logs (d : DB) (l : gmap (Z * Z) daily_log) : DB :=
  {| users := users d; next_user_id := next_user_id d; daily_logs := l;
     plan_for_date := plan_for_date d |}.
Definition with_users (d : DB) (us : list user_row) (next : Z) : DB :=
  {| users := us; next_user_id := next; daily_logs := daily_logs d;
     plan_for_date := plan_for_date d |}.

Definition coalesce {A} (x : option A) (d : A) : A :=
  match x with Some a => a | None => d end.

Definition get_user (chat : Z) : M (option user_row) :=
  fun w => (Ok (find (fun u => chat_id u =? chat) (users (db w))), w).

Definition get_user_count : M Z :=
  fun w => (Ok (Z.of_nat (length (users (db w)))), w).

Fixpoint update_where_chat (chat : Z) (f : user_row -> user_row) (us : list user_row)
    : list user_row :=
  match us with
  | [] => []
  | u :: r => (if chat_id u =? chat then f u else u) :: update_where_chat chat f r
  end.

(** [upsert_user(chat_id, **kwargs)]: insert the chat if absent (ids come
    from AUTOINCREMENT; SQLite advances its counter also when the insert
    hits the [ON CONFLICT ... DO NOTHING] clause), then
    [UPDATE users SET ...], given as [f]. *)
Definition upsert_user (chat : Z) (f : user_row -> user_row) : M unit :=
  fun w =>
    let d := db w in
    let d := if existsb (fun u => chat_id u =? chat) (users d)
             then with_users d (users d) (next_user_id d + 1)
             else with_users d (users d ++ [{| id := next_user_id d; chat_id := chat;
                                              nickname := None; weight := None;
                                              height := None; age := None |}])
                             (next_user_id d + 1) in
    (Ok tt, set_db w (with_users d (update_where_chat chat f (users d)) (next_user_id d))).

Definition set_nickname (n : option string) (u : user_row) : user_row :=
  {| id := id u; chat_id := chat_id u; nickname := n; weight := weight u;
     height := height u; age := age u |}.

Definition load_daily_log (user_id date : Z) : M (option daily_log) :=
  fun w => (Ok (daily_logs (db w) !! (user_id, date)), w).

(** [update_daily_log]: [INSERT ... VALUES (?, ?, ?, ?, COALESCE(?, 0))
    ON CONFLICT DO UPDATE SET exercises_done = excluded.exercises_done,
    difficulty_rate = COALESCE(excluded.difficulty_rate, old),
    points = COALESCE(excluded.points, old)]. [excluded] is the row the
    VALUES clause built, so [excluded.points] is [COALESCE(?, 0)]. *)
Definition update_daily_log (user_id date : Z) (ex : sessions)
    (difficulty : option string) (pts : option Z) : M unit :=
  fun w =>
    let logs := daily_logs (db w) in
    let excluded_points : option Z := Some (coalesce pts 0) in
    let row :=
      match logs !! (user_id, date) with
      | None => {| exercises_done := ex; difficulty_rate := difficulty;
                   points := coalesce pts 0 |}
      | Some old => {| exercises_done := ex;
                       difficulty_rate := match difficulty with
                                          | Some r => Some r
                                          | None => difficulty_rate old
                                          end;
                       points := coalesce excluded_points (points old) |}
      end in
    (Ok tt, set_db w (with_logs (db w) (<[(user_id, date) := row]> logs))).

(** [add_points]: [UPDATE daily_logs SET points = COALESCE(points, 0) + ?]. *)
Definition add_points (user_id date delta : Z) : M unit :=
  fun w =>
    let logs := daily_logs (db w) in
    match logs !! (user_id, date) with
    | None => (Ok tt, w)
    | Some old =>
        (Ok tt, set_db w (with_logs (db w) (<[(user_id, date) :=
           {| exercises_done := exercises_done old; difficulty_rate := difficulty_rate old;
              points := points old + delta |}]> logs)))
    end.

Definition get_plan_for_date (user_id date : Z)
    : M (option (bool * list exercise * option string)) :=
  fun w => (Ok (plan_for_date (db w) user_id date), w).

(** A reply through the handler's own message or callback object. *)
Definition answer (chat : Z) (r : reply) : M unit :=
  fun w => (Ok tt, {| db := db w; outbox := outbox w ++ [(chat, r)] |}).

End Database.
Import Database.

(** ** [app/bot.py] *)
Module Bot.

Definition MAX_USERS : Z := 2.

Definition FALLBACK_WORKOUT : list exercise :=
  [ {| ex_name := "Отжимания"; ex_points := None; ex_done := None |};
    {| ex_name := "Приседания"; ex_points := None; ex_done := None |};
    {| ex_name := "Планка"; ex_points := None; ex_done := None |} ].

Fixpoint dict_get {V} (d : list (string * V)) (k : string) (default : V) : V :=
  match d with
  | [] => default
  | (k', v) :: r => if String.eqb k' k then v else dict_get r k default
  end.

(** [d[k] = v]: an existing key keeps its place, a new one goes last. *)
Fixpoint dict_set {V} (d : list (string * V)) (k : string) (v : V) : list (string * V) :=
  match d with
  | [] => [(k, v)]
  | (k', v') :: r => if String.eqb k' k then (k, v) :: r else (k', v') :: dict_set r k v
  end.

Definition _log_exercises (log : option daily_log) (session : string) : list exercise :=
  match log with
  | None => []
  | Some l =>
      match exercises_done l with
      | SessDict d => dict_get d session []
      | SessList xs => if String.eqb session "main" then xs else []
      end
  end.

Definition _store_log_exercises (log : option daily_log) (session : string)
    (exercises : list exercise) : sessions :=
  let existing :=
    match log with
    | Some l => match exercises_done l with
                | SessDict d => d
                | SessList xs => [("main", xs)]
                end
    | None => []
    end in
  SessDict (dict_set existing session exercises).

(** [item.get("done", False)] *)
Definition done_flag (e : exercise) : bool := coalesce (ex_done e) false.

(** [exercise["done"] = b] *)
Definition set_done (e : exercise) (b : bool) : exercise :=
  {| ex_name := ex_name e; ex_points := ex_points e; ex_done := Some b |}.

(** [sum(ex.get("points", 1) for ex in exercises if ex.get("done"))] *)
Definition session_points (exercises : list exercise) : Z :=
  fold_right (fun e acc => (if done_flag e then coalesce (ex_points e) 1 else 0) + acc)
             0 exercises.

(** [s or "skipped"] on an optional string column *)
Definition or_skipped (s : option string) : string :=
  match s with Some r => if String.eqb r "" then "skipped" else r | None => "skipped" end.

(** [lst[i] = v] with Python's negative indices and [IndexError]. *)
Definition py_setitem {A} (l : list A) (i : Z) (v : A) : result (list A) :=
  let n := Z.of_nat (length l) in
  let j := if i <? 0 then i + n else i in
  if (0 <=? j) && (j <? n) then Ok (<[Z.to_nat j := v]> l) else Raise IndexError.

Definition close_previous_day_if_pending (user_id today : Z) : M unit :=
  let yesterday := today - 1 in
  let! previous_log := load_daily_log user_id yesterday in
  match previous_log with
  | None => ret tt
  | Some prev =>
      if negb (points prev =? 0) then ret tt
      else update_daily_log user_id yesterday (exercises_done prev)
             (Some (or_skipped (difficulty_rate prev))) (Some 0)
  end.

(** A bot delivering [r] to [chat] either succeeds ([None]) or raises. *)
Definition bot_api := Z -> reply -> option exc.

(** [safe_send]: the attempt is recorded, [TelegramForbiddenError] is
    swallowed and any other error propagates. *)
Definition safe_send (bot : bot_api) (chat : Z) (r : reply) : M unit :=
  fun w =>
    let w' := {| db := db w; outbox := outbox w ++ [(chat, r)] |} in
    match bot chat r with
    | None => (Ok tt, w')
    | Some TelegramForbiddenError => (Ok tt, w')
    | Some e => (Raise e, w')
    end.

Inductive plan_item :=
| PlanRest (b : bool)
| PlanExercises (l : list exercise)
| PlanTitle (t : option string).

(** [get_plan_day]'s return value as the Python tuple it is. *)
Definition plan_tuple (p : bool * list exercise * option string) : list plan_item :=
  let '(b, l, t) := p in [PlanRest b; PlanExercises l; PlanTitle t].

(** The part of [scheduled_push] after the plan branch. *)
Definition push_tail (bot : bot_api) (chat user_id today : Z)
    (existing_log : option daily_log) (exercises : list exercise) : M unit :=
  match existing_log with
  | Some l => if negb (points l =? 0) then ret tt else
      do! update_daily_log user_id today (SessList exercises) None None;
      safe_send bot chat (WorkoutCard today exercises "main")
  | None =>
      do! update_daily_log user_id today (SessList exercises) None None;
      safe_send bot chat (WorkoutCard today exercises "main")
  end.

Definition scheduled_push (bot : bot_api) (today chat : Z) : M unit :=
  let! user := get_user chat in
  match user with
  | None => ret tt
  | Some u =>
      do! close_previous_day_if_pending (id u) today;
      let! plan := get_plan_for_date (id u) today in
      let! existing_log := load_daily_log (id u) today in
      match plan with
      | None =>
          do! safe_send bot chat PlanUnavailable;
          push_tail bot chat (id u) today existing_log
            (match existing_log with
             | Some _ => _log_exercises existing_log "main"
             | None => FALLBACK_WORKOUT
             end)
      | Some p =>
          (** [is_rest, exercises = plan] on a three-item tuple *)
          let! pair := lift (unpack2 (plan_tuple p)) in
          match pair with
          | (PlanRest is_rest, PlanExercises exercises) =>
              let exercises :=
                match _log_exercises existing_log "main" with
                | [] => exercises
                | stored => stored
                end in
              if is_rest then safe_send bot chat RestDay
              else push_tail bot chat (id u) today existing_log exercises
          | _ => raise ValueError
          end
      end
  end.

Record ExerciseCallback := { cb_session : string; cb_index : Z; cb_completed : bool }.

Definition handle_exercise_callback (today chat : Z) (cb : ExerciseCallback) : M unit :=
  let! user := get_user chat in
  match user with
  | None => answer chat NoProfile
  | Some u =>
  let! log := load_daily_log (id u) today in
  match log with
  | None => answer chat PlanNotFound
  | Some l =>
  let session := cb_session cb in
  let exercises := _log_exercises log session in
  let completed := map done_flag exercises in
  if cb_index cb =? -1 then
    if String.eqb session "additional" then
      do! answer chat AdditionalCancelled; answer chat Ack
    else if negb (points l =? 0) then answer chat AlreadyCompleted
    else
      do! update_daily_log (id u) today (_store_log_exercises log session exercises)
            (Some "skipped") (Some 0);
      do! answer chat DaySkipped;
      answer chat Ack
  else
    let! completed := lift (py_setitem completed (cb_index cb) (cb_completed cb)) in
    let exercises := zip_with set_done exercises completed in
    let all_done := forallb (fun b => b) completed in
    do! update_daily_log (id u) today (_store_log_exercises log session exercises) None None;
    if all_done then
      let pts := session_points exercises in
      do! (if String.eqb session "additional" then
             do! add_points (id u) today pts;
             answer chat (AdditionalDone pts)
           else
             do! update_daily_log (id u) today (_store_log_exercises log session exercises)
                   (Some "completed") (Some pts);
             answer chat (WorkoutDone pts));
      do! answer chat MenuUpdated;
      answer chat Great
    else
      do! answer chat (WorkoutCard today exercises session);
      answer chat Updated
  end
  end.

End Bot.
Import Bot.

(** ** Access control and the handlers that create users *)
Module Access.

(** What a message carries, as far as the routing filters look at it. *)
Inductive content :=
| CmdStart                (** "/start" *)
| ProfileButton           (** "👤 Профиль" or "👤 Мой Профиль" *)
| OtherText (s : string).

(** A [Message]: its chat, its content and the name [ensure_profile]
    derives from [from_user] ([None] when that name is empty). *)
Record Message := { msg_chat : Z; msg_content : content; msg_from_name : option string }.

(** An [Update] of the Bot API; it has no [chat] attribute. *)
Record Update := { update_id : Z; update_message : option Message }.

Record CallbackQuery := { cq_chat : Z; cq_data : ExerciseCallback }.

Inductive event :=
| EvUpdate (u : Update)
| EvMessage (m : Message)
| EvCallbackQuery (c : CallbackQuery).

(** [event.chat.id] when [hasattr(event, "chat")]: only a [Message] has
    a [chat] attribute ([CallbackQuery] has [message.chat]). *)
Definition event_chat (ev : event) : option Z :=
  match ev with EvMessage m => Some (msg_chat m) | _ => None end.

Definition AccessMiddleware (handler : event -> M (option unit)) (ev : event)
    : M (option unit) :=
  match event_chat ev with
  | None => handler ev
  | Some chat =>
      let! user := get_user chat in
      match user with
      | Some _ => handler ev
      | None =>
          let! count := get_user_count in
          if MAX_USERS <=? count then
            do! (match ev with EvMessage _ => answer chat NoSeats | _ => ret tt end);
            ret None
          else handler ev
      end
  end.

Definition ensure_profile (m : Message) : M (option user_row) :=
  let chat := msg_chat m in
  let! user := get_user chat in
  match user with
  | Some u =>
      match nickname u, msg_from_name m with
      | None, Some _ =>
          do! upsert_user chat (set_nickname (msg_from_name m));
          get_user chat
      | _, _ => ret (Some u)
      end
  | None =>
      do! upsert_user chat (set_nickname (msg_from_name m));
      get_user chat
  end.

Definition profile_ready (u : user_row) : bool :=
  match nickname u, weight u, height u, age u with
  | Some _, Some _, Some _, Some _ => true
  | _, _, _, _ => false
  end.

(** [show_profile]; the FSM state changes are not modelled. *)
Definition show_profile (m : Message) : M unit :=
  let! user := ensure_profile m in
  match user with
  | None => answer (msg_chat m) ProfileLoadFailed
  | Some u =>
      if profile_ready u then answer (msg_chat m) ProfileCard
      else answer (msg_chat m) ProfilePrompt
  end.

(** [start], up to its final [_schedule_user_from_row] call. That call
    comes after every database write; it is left out, and so is the
    [AttributeError] it raises when the row has a notification time (the
    [.split] slip of [schedule_fixed] and [_range_job]). The
    [notify_time_utc] fields [start] writes are not modelled. *)
Definition start (m : Message) : M unit :=
  let chat := msg_chat m in
  let! user := get_user chat in
  match user with
  | Some _ => answer chat Greeting
  | None =>
      let! count := get_user_count in
      if MAX_USERS <=? count then answer chat NoSeats
      else
        do! upsert_user chat (set_nickname (msg_from_name m));
        answer chat Greeting
  end.

Definition route_message (m : Message) : M (option unit) :=
  match msg_content m with
  | CmdStart => do! start m; ret (Some tt)
  | ProfileButton => do! show_profile m; ret (Some tt)
  | OtherText _ => ret None
  end.

(** The dispatcher's update handler: it hands the update's message to the
    router. *)
Definition listen_update (ev : event) : M (option unit) :=
  match ev with
  | EvUpdate u => match update_message u with Some m => route_message m | None => ret None end
  | EvMessage m => route_message m
  | EvCallbackQuery _ => ret None
  end.

(** [main]: [dp.update.middleware(AccessMiddleware())] wraps the update
    handler, so the middleware sees each incoming [Update]. *)
Definition feed_update (u : Update) : M (option unit) :=
  AccessMiddleware listen_update (EvUpdate u).

End Access.
Import Access.

(** ** [app/database.py] and [app/bot.py]: the statistics over [daily_logs] *)
Module Stats.

(** A row of [daily_logs] as [SELECT] returns it: its key
    [(user_id, date)] and its columns. *)
Definition row := ((Z * Z) * daily_log)%type.

(** [WHERE user_id = ?] *)
Definition user_rows (user_id : Z) (logs : gmap (Z * Z) daily_log) : list row :=
  List.filter (fun kv : row => kv.1.1 =? user_id) (map_to_list logs).

(** [total_points]: [SELECT SUM(points) ... WHERE user_id = ?] with
    [int(res or 0)]; the sum of no rows is [NULL], read as 0. *)
Definition total_points (user_id : Z) (logs : gmap (Z * Z) daily_log) : Z :=
  fold_right (fun kv acc => points kv.2 + acc) 0 (user_rows user_id logs).

(** [COALESCE(points,0) > 0] *)
Definition positive (kv : row) : bool := 0 <? points kv.2.

(** [completed_days]: the [COUNT] of the user's rows with [COALESCE(points,0) > 0]. *)
Definition completed_days (user_id : Z) (logs : gmap (Z * Z) daily_log) : Z :=
  Z.of_nat (length (List.filter positive (user_rows user_id logs))).

(** [ORDER BY date DESC] and Python's [sorted]: the [date] column holds
    [date.isoformat()] strings, whose text order is the order of the
    days. *)
Fixpoint insert_desc (x : Z) (l : list Z) : list Z :=
  match l with
  | [] => [x]
  | y :: r => if y <? x then x :: y :: r else y :: insert_desc x r
  end.

Fixpoint sort_desc (l : list Z) : list Z :=
  match l with [] => [] | x :: r => insert_desc x (sort_desc r) end.

Fixpoint insert_asc (x : Z) (l : list Z) : list Z :=
  match l with
  | [] => [x]
  | y :: r => if x <=? y then x :: y :: r else y :: insert_asc x r
  end.

Fixpoint sort_asc (l : list Z) : list Z :=
  match l with [] => [] | x :: r => insert_asc x (sort_asc r) end.

(** [completion_dates]: the dates with positive points, newest first. *)
Definition completion_dates (user_id : Z) (logs : gmap (Z * Z) daily_log) : list Z :=
  sort_desc (map (fun kv : row => kv.1.2) (List.filter positive (user_rows user_id logs))).

(** The loop of [calculate_streak]. *)
Fixpoint streak_loop (dates : list Z) (expected streak : Z) : Z :=
  match dates with
  | [] => streak
  | current :: rest =>
      if current =? expected then streak_loop rest (expected - 1) (streak + 1)
      else if current <? expected then streak
      else streak_loop rest expected streak
  end.

(** [calculate_streak(user_id)]; [today] is [dt.date.today()]. *)
Definition calculate_streak (user_id : Z) (logs : gmap (Z * Z) daily_log) (today : Z) : Z :=
  match completion_dates user_id logs with
  | [] => 0
  | dates => streak_loop dates today 0
  end.

(** The loop of [calculate_max_streak]; [prev] is [None] before the
    first date (a [date] is always truthy). *)
Fixpoint max_streak_loop (dates : list Z) (prev : option Z) (current best : Z) : Z :=
  match dates with
  | [] => best
  | day :: rest =>
      let current :=
        match prev with
        | Some p => if day - p =? 1 then current + 1 else 1
        | None => 1
        end in
      max_streak_loop rest (Some day) current (Z.max best current)
  end.

Definition calculate_max_streak (user_id : Z) (logs : gmap (Z * Z) daily_log) : Z :=
  max_streak_loop (sort_asc (completion_dates user_id logs)) None 0 0.

End Stats.
Import Stats.

(** ** [app/database.py]: the [weekly_plan] table *)
Module PlanTable.

(** A [weekly_plan] row; [exercise_list] is the decoded JSON list. *)
Record plan_row := {
  pr_user_id : Z;
  pr_day_index : Z;
  pr_title : option string;
  pr_exercise_list : list exercise;
  pr_is_rest_day : bool }.

(** An item of the [plan] list [replace_plan] receives: [item["day_index"]],
    [item.get("title")], [item.get("exercises", [])] and the truth of
    [item.get("is_rest")]. *)
Record plan_day := {
  day_index : Z;
  title : option string;
  exercises : list exercise;
  is_rest : bool }.

(** The only error these statements raise: a row that breaks
    [UNIQUE(user_id, day_index)]. *)
Inductive sql_error := IntegrityError.

(** [INSERT INTO weekly_plan ...]: rows get increasing [id]s, so a new row
    goes last. *)
Definition insert_plan_row (rows : list plan_row) (r : plan_row) : list plan_row + sql_error :=
  if existsb (fun r' => (pr_user_id r' =? pr_user_id r) && (pr_day_index r' =? pr_day_index r)) rows
  then inr IntegrityError else inl (rows ++ [r])%list.

Definition row_of (user_id : Z) (item : plan_day) : plan_row :=
  {| pr_user_id := user_id; pr_day_index := day_index item; pr_title := title item;
     pr_exercise_list := exercises item; pr_is_rest_day := is_rest item |}.

(** [replace_plan(user_id, plan, start_date)] on the [weekly_plan] table:
    the new table, or the error, after which [get_conn] closes the
    connection without [commit], so the table keeps its old rows. The
    final [UPDATE users SET plan_start_date] is not modelled; the
    statements pass the start date to [get_plan_for_date] themselves. *)
Definition replace_plan (user_id : Z) (plan : list plan_day) (rows : list plan_row)
    : list plan_row + sql_error :=
  fold_left (fun acc item =>
               match acc with
               | inl rs => insert_plan_row rs (row_of user_id item)
               | inr e => inr e
               end)
            plan (inl (List.filter (fun r => negb (pr_user_id r =? user_id)) rows)).

Definition plan_length (rows : list plan_row) (user_id : Z) : Z :=
  Z.of_nat (length (List.filter (fun r => pr_user_id r =? user_id) rows)).

Definition get_plan_day (rows : list plan_row) (user_id day : Z)
    : option (bool * list exercise * option string) :=
  match find (fun r => (pr_user_id r =? user_id) && (pr_day_index r =? day)) rows with
  | None => None
  | Some r =>
      if pr_is_rest_day r then Some (true, [], pr_title r)
      else Some (false, pr_exercise_list r, pr_title r)
  end.

(** [get_plan_for_date(user_id, target_date, start_date)]; [start_date]
    is [None] for a NULL or empty [plan_start_date]. Python's [%] with a
    positive divisor is [Z.modulo]. *)
Definition get_plan_for_date (rows : list plan_row) (user_id target : Z) (start_date : option Z)
    : option (bool * list exercise * option string) :=
  let total_days := plan_length rows user_id in
  if total_days =? 0 then None
  else
    let start_dt := match start_date with Some s => s | None => target end in
    let delta := target - start_dt in
    let index := delta mod total_days + 1 in
    get_plan_day rows user_id index.

End PlanTable.

(** ** [app/keyboards.py]: [exercises_keyboard] *)
Module Keyboards.

Record button := { btn_text : string; btn_data : ExerciseCallback }.

(** The [for idx, exercise in enumerate(exercises)] loop; [completed[idx]]
    raises [IndexError] past the end of [completed]. *)
Fixpoint exercise_buttons (exercises : list exercise) (completed : list bool)
    (session : string) (idx : nat) : result (list button) :=
  match exercises with
  | [] => Ok []
  | e :: rest =>
      match nth_error completed idx with
      | None => Raise IndexError
      | Some c =>
          rbind (exercise_buttons rest completed session (S idx)) (fun bs =>
          Ok ({| btn_text := (if c then "✅" else "[ ]") ++ " " ++ ex_name e;
                 btn_data := {| cb_session := session; cb_index := Z.of_nat idx;
                                cb_completed := negb c |} |} :: bs))
      end
  end.

Definition skip_button (session : string) : button :=
  {| btn_text := "🚫 Пропустить день";
     btn_data := {| cb_session := session; cb_index := -1; cb_completed := false |} |}.

(** [exercises_keyboard(exercises, completed, session)]; [adjust(1)] puts
    each button on a row of its own. *)
Definition exercises_keyboard (exercises : list exercise) (completed : list bool)
    (session : string) : result (list (list button)) :=
  rbind (exercise_buttons exercises completed session 0) (fun bs =>
  Ok (map (fun b => [b]) (bs ++ [skip_button session]))).

End Keyboards.
Import Keyboards.

(** ** [app/bot.py]: [pluralize_days] *)
Module Texts.

Fixpoint str_digits (fuel : nat) (n : Z) (acc : string) : string :=
  match fuel with
  | O => acc
  | S f =>
      let acc := String (ascii_of_nat (48 + Z.to_nat (n mod 10))) acc in
      if n <? 10 then acc else str_digits f (n / 10) acc
  end.

(** [str(n)] for an [int]. *)
Definition py_str (n : Z) : string :=
  let m := Z.abs n in
  let s := str_digits (S (Pos.size_nat (Z.to_pos m))) m "" in
  if n <? 0 then "-" ++ s else s.

Definition pluralize_days (value : Z) : string :=
  let last_two := Z.abs value mod 100 in
  let last_one := Z.abs value mod 10 in
  let suffix :=
    if (11 <=? last_two) && (last_two <=? 14) then "дней"
    else if last_one =? 1 then "день"
    else if (2 <=? last_one) && (last_one <=? 4) then "дня"
    else "дней" in
  py_str value ++ " " ++ suffix.

End Texts.
Import Texts.

(** * Auxiliary definitions for the statements *)

(** The window [_range_job] computes from boundaries [st], [et] (seconds
    after midnight) at the clock reading [now]. *)
Definition window_of (st et now : Z) : Z * Z :=
  let d := now / DAY in
  let s := d * DAY + st in
  let e := d * DAY + et in
  let e := if e <=? s then e + DAY else e in
  if e <=? now then (s + DAY, e + DAY) else (s, e).

(** A scheduler with no jobs. *)
Definition empty_scheduler : WorkoutScheduler := {| jobs := []; running := true |}.

(** A job store holding the range job of chat 1 (22:00-23:00 UTC, due at
    2024-01-01T22:30:00Z) and the daily 06:00 UTC job of chat 2. *)
Definition chat1_range_job : job :=
  {| job_id := 1; job_func := _wrap 1 "range" (Some (PyStr "22:00")) (Some (PyStr "23:00"));
     job_trigger := DateTrigger 1704148200 |}.

Definition two_job_scheduler : WorkoutScheduler :=
  {| jobs := [chat1_range_job;
              {| job_id := 2; job_func := _wrap 2 "fixed" None None;
                 job_trigger := CronTrigger 6 0 |}];
     running := true |}.

(** A sample database: user 7 (chat 70) with a log for day 100 whose
    main session lists two exercises, the first one done. *)
Definition sample_user : user_row :=
  {| id := 7; chat_id := 70; nickname := Some "Ann"; weight := Some 60;
     height := Some 170; age := Some 30 |}.

Definition sample_main : list exercise :=
  [ {| ex_name := "Отжимания"; ex_points := Some 3; ex_done := Some true |};
    {| ex_name := "Планка"; ex_points := None; ex_done := None |} ].

Definition sample_log (difficulty : option string) (pts : Z) : daily_log :=
  {| exercises_done := SessDict [("main", sample_main)]; difficulty_rate := difficulty;
     points := pts |}.

Definition sample_world (logs : gmap (Z * Z) daily_log) : world :=
  {| db := {| users := [sample_user]; next_user_id := 8; daily_logs := logs;
              plan_for_date := fun _ _ => None |};
     outbox := [] |}.

(** The day 100 of user 7 after the main session was completed for 5
    points, with one additional exercise still to do. *)
Definition additional_pending_log : daily_log :=
  {| exercises_done :=
       SessDict [("main", [ {| ex_name := "Отжимания"; ex_points := Some 5; ex_done := Some true |} ]);
                 ("additional", [ {| ex_name := "Планка"; ex_points := None; ex_done := Some false |} ])];
     difficulty_rate := Some "completed"; points := 5 |}.

(** A bot through which every message is delivered. *)
Definition delivering_bot : bot_api := fun _ _ => None.

(** Two registered users (chats 1 and 2), and a third chat pressing the
    profile button. *)
Definition two_user_world : world :=
  {| db := {| users := [ {| id := 1; chat_id := 1; nickname := Some "A"; weight := None;
                            height := None; age := None |};
                         {| id := 2; chat_id := 2; nickname := Some "B"; weight := None;
                            height := None; age := None |} ];
              next_user_id := 3; daily_logs := ∅; plan_for_date := fun _ _ => None |};
     outbox := [] |}.

Definition third_chat_profile : Message :=
  {| msg_chat := 3; msg_content := ProfileButton; msg_from_name := Some "C" |}.

(** A two-day plan for user 1 (a rest day, then one exercise), and a
    [weekly_plan] table holding an old row of user 1 and a row of user 2. *)
Definition sample_plan : list PlanTable.plan_day :=
  [ {| PlanTable.day_index := 1; PlanTable.title := Some "Rest"; PlanTable.exercises := [];
       PlanTable.is_rest := true |};
    {| PlanTable.day_index := 2; PlanTable.title := Some "Legs";
       PlanTable.exercises := [ {| ex_name := "Squats"; ex_points := Some 2; ex_done := None |} ];
       PlanTable.is_rest := false |} ].

Definition sample_plan_rows : list PlanTable.plan_row :=
  [ {| PlanTable.pr_user_id := 1; PlanTable.pr_day_index := 5; PlanTable.pr_title := None;
       PlanTable.pr_exercise_list := []; PlanTable.pr_is_rest_day := true |};
    {| PlanTable.pr_user_id := 2; PlanTable.pr_day_index := 1; PlanTable.pr_title := Some "Run";
       PlanTable.pr_exercise_list := FALLBACK_WORKOUT; PlanTable.pr_is_rest_day := false |} ].

(** * Properties *)

(** ** Time conversion *)

Lemma digit_range (c : ascii) (d : Z) : digit c = Some d -> 0 <= d <= 9.
Proof.
  unfold digit. destruct ((48 <=? nat_of_ascii c)%nat && (nat_of_ascii c <=? 57)%nat) eqn:E;
    [|discriminate].
  intros H; injection H as <-. apply andb_prop in E as [E1 E2].
  apply Nat.leb_le in E1; apply Nat.leb_le in E2. lia.
Qed.

(** Case analysis on every [match] of a hypothesis, dropping the branches
    where it equates distinct constructors. *)
Ltac split_matches H :=
  repeat match type of H with
         | context [match ?x with _ => _ end] => destruct x eqn:?; try discriminate H
         end.

Lemma time_fromisoformat_range (s : string) (secs : Z) :
  time_fromisoformat s = Ok secs -> 0 <= secs < DAY.
Proof.
  unfold time_fromisoformat, DAY. intros H. split_matches H.
  injection H as <-.
  repeat match goal with E : digit _ = Some _ |- _ => apply digit_range in E end.
  repeat match goal with E : (_ && _)%bool = true |- _ => apply andb_prop in E as [? ?] end.
  repeat match goal with E : (_ <? _) = true |- _ => apply Z.ltb_lt in E end.
  lia.
Qed.

Lemma tz_name_of_resolved (name : string) (z : zone) :
  ZoneInfo name = Ok z -> tz_name_or_default (Some name) = name.
Proof.
  unfold tz_name_or_default. destruct (String.eqb_spec name "") as [->|]; [|reflexivity].
  discriminate.
Qed.

Lemma convert_fixed_spec_scenario :
  convert_local_time_to_utc "09:00" (Some "Europe/Moscow") 1704096000 = Ok 1704175200.
Proof. reflexivity. Qed.

(** C1 (code bug). For the spec's scenario — Europe/Moscow, "09:00", clock
    at 2024-01-01T08:00:00Z (1704096000) — [convert_local_time_to_utc]
    returns the aware datetime 2024-01-02T06:00:00Z (1704175200), and
    [schedule_fixed] then calls [.split(":")] on that datetime and raises
    [AttributeError] without arming any job. *)
Theorem schedule_fixed_moscow_scenario_raises :
  convert_local_time_to_utc "09:00" (Some "Europe/Moscow") 1704096000 = Ok 1704175200 /\
  forall (chat : Z) (s : WorkoutScheduler),
    schedule_fixed chat "09:00" (Some "Europe/Moscow") 1704096000 s = (Raise AttributeError, s).
Proof.
  split; [exact convert_fixed_spec_scenario|].
  intros chat s. unfold schedule_fixed, bind, lift.
  rewrite convert_fixed_spec_scenario. reflexivity.
Qed.

(** C4 (25-hour day). In America/New_York with the clock at
    2024-11-02T14:00:00Z (10:00 EDT), "09:59" converts to
    2024-11-03T14:59:00Z, where the wall clock reads 09:59 (EST), 24h59m
    after the clock reading: across the 25-hour day the next 09:59 is more
    than 24 hours away. *)
Lemma convert_local_time_dst_counterexample :
  convert_local_time_to_utc "09:59" (Some "America/New_York") 1730556000 = Ok 1730645940 /\
  (1730645940 + utcoffset_utc new_york 1730645940) mod DAY = 9 * 3600 + 59 * 60 /\
  1730645940 - 1730556000 > DAY.
Proof. vm_compute. repeat split; reflexivity. Qed.

(** C4 (code bug). In America/New_York with the clock at
    2024-11-03T06:30:00Z (01:30 EST, the second pass of the repeated hour
    01:00-02:00), [convert_local_time_to_utc "01:45"] returns
    2024-11-03T05:45:00Z (01:45 EDT, the first pass), 45 minutes before
    the clock reading, although the wall clock reads 01:45 again at
    2024-11-03T06:45:00Z, 15 minutes after it. The naive local-today
    combination 01:45 is after the naive local now 01:30, so no day is
    added, and [fold=0] picks the earlier of the two instants. *)
Theorem convert_local_time_repeated_hour_goes_back :
  convert_local_time_to_utc "01:45" (Some "America/New_York") 1730615400 = Ok 1730612700 /\
  (1730612700 + utcoffset_utc new_york 1730612700) mod DAY = 1 * 3600 + 45 * 60 /\
  1730612700 < 1730615400 /\
  (1730616300 + utcoffset_utc new_york 1730616300) mod DAY = 1 * 3600 + 45 * 60 /\
  1730615400 <= 1730616300 <= 1730615400 + DAY.
Proof. vm_compute. repeat split; try reflexivity; discriminate. Qed.

(** ** The scheduler *)

Lemma dt_time_range (h m x : Z) : dt_time h m = Ok x -> 0 <= x < DAY.
Proof.
  unfold dt_time, DAY. intros H. split_matches H. injection H as <-.
  repeat match goal with E : (_ && _)%bool = true |- _ => apply andb_prop in E as [? ?] end.
  repeat match goal with
         | E : (_ <? _) = true |- _ => apply Z.ltb_lt in E
         | E : (_ <=? _) = true |- _ => apply Z.leb_le in E
         end.
  lia.
Qed.

(** Once the boundary strings parse, the window depends on the clock only
    through [window_of]. *)
Lemma range_window_shape (s e : pyval) (now : Z) (w : Z * Z) :
  range_window s e now = Ok w ->
  exists st et, 0 <= st < DAY /\ 0 <= et < DAY /\
    forall now', range_window s e now' = Ok (window_of st et now').
Proof.
  unfold range_window.
  destruct (py_split s ":") as [sp|] eqn:E1; [|inversion 1]. cbn [rbind].
  destruct (unpack_two_ints sp) as [shm|] eqn:E2; [|inversion 1]. cbn [rbind].
  destruct (py_split e ":") as [ep|] eqn:E3; [|inversion 1]. cbn [rbind].
  destruct (unpack_two_ints ep) as [ehm|] eqn:E4; [|inversion 1]. cbn [rbind].
  destruct (dt_time (fst shm) (snd shm)) as [st|] eqn:E5; [|inversion 1]. cbn [rbind].
  destruct (dt_time (fst ehm) (snd ehm)) as [et|] eqn:E6; [|inversion 1]. cbn [rbind].
  intros _. exists st, et.
  split; [exact (dt_time_range _ _ _ E5)|]. split; [exact (dt_time_range _ _ _ E6)|].
  intros now'. unfold window_of. cbv zeta.
  destruct (now' / DAY * DAY + et <=? now' / DAY * DAY + st);
    match goal with |- context [if ?b then _ else _] => destruct b end; reflexivity.
Qed.

Lemma window_of_ordered (st et now : Z) :
  0 <= st < DAY -> 0 <= et < DAY -> fst (window_of st et now) < snd (window_of st et now).
Proof.
  intros Hs He. unfold window_of. cbv zeta.
  set (b := now / DAY * DAY).
  destruct (b + et <=? b + st) eqn:E1; destruct (_ <=? now) eqn:E2; cbn [fst snd];
    repeat match goal with
           | E : (_ <=? _) = true |- _ => apply Z.leb_le in E
           | E : (_ <=? _) = false |- _ => apply Z.leb_gt in E
           end; lia.
Qed.

Lemma range_window_ordered (s e : pyval) (now S E : Z) :
  range_window s e now = Ok (S, E) -> S < E.
Proof.
  intros H. pose proof (range_window_shape _ _ _ _ H) as [st [et [Hst [Het Hw]]]].
  rewrite Hw in H. injection H as HW.
  pose proof (window_of_ordered st et now Hst Het) as Ho. rewrite HW in Ho. exact Ho.
Qed.

Lemma find_replace_or_append (j : job) (l : list job) :
  find (fun x => job_id x =? job_id j) (replace_or_append j l) = Some j.
Proof.
  induction l as [|x r IH]; cbn.
  - rewrite Z.eqb_refl. reflexivity.
  - destruct (job_id x =? job_id j) eqn:E; cbn.
    + rewrite Z.eqb_refl. reflexivity.
    + rewrite E. exact IH.
Qed.

Lemma find_job_add_job (func : wrapped) (trig : trigger) (chat : Z) (st : WorkoutScheduler) :
  find_job (snd (add_job func trig chat st)) chat =
  Some {| job_id := chat; job_func := func; job_trigger := trig |}.
Proof.
  unfold find_job, add_job. cbn [snd jobs].
  exact (find_replace_or_append {| job_id := chat; job_func := func; job_trigger := trig |}
           (jobs st)).
Qed.

(** [_range_job] arms a date trigger at [start + randint 0 span] of the
    window it computes. *)
Lemma range_job_arms (chat : Z) (s e : pyval) (now : Z) (randint : Z -> Z -> Z)
    (st : WorkoutScheduler) (S E : Z) :
  range_window s e now = Ok (S, E) ->
  fst (_range_job chat s e now randint st) = Ok tt /\
  find_job (snd (_range_job chat s e now randint st)) chat =
    Some {| job_id := chat; job_func := _wrap chat "range" (Some s) (Some e);
            job_trigger := DateTrigger (S + randint 0 (E - S)) |}.
Proof.
  intros H. pose proof (range_window_ordered _ _ _ _ _ H) as Hlt.
  unfold _range_job, bind, lift. rewrite H. cbn [fst snd].
  destruct (E - S <? 0) eqn:Ec; [apply Z.ltb_lt in Ec; lia|].
  split; [reflexivity|]. apply find_job_add_job.
Qed.

Lemma range_window_nonempty_strings (s e : string) (now : Z) (w : Z * Z) :
  range_window (PyStr s) (PyStr e) now = Ok w ->
  truthy_val (PyStr s) && truthy_val (PyStr e) = true.
Proof.
  intros H. destruct s as [|c s]; [cbn in H; discriminate H|].
  destruct e as [|c' e]; [|reflexivity].
  unfold range_window in H. cbn [py_split rbind] in H.
  destruct (unpack_two_ints (split_on ":" (String c s))); cbn [rbind] in H; [|discriminate H].
  cbn in H. discriminate H.
Qed.

Lemma window_of_same_day (st et now0 t : Z) :
  0 <= st < DAY -> 0 <= et < DAY ->
  fst (window_of st et now0) <= t < snd (window_of st et now0) ->
  t / DAY = fst (window_of st et now0) / DAY ->
  window_of st et t = window_of st et now0.
Proof.
  intros Hs He Ht Hd. unfold window_of in *. cbv zeta in *. unfold DAY in *.
  set (d := now0 / 86400) in *.
  assert (key : forall D, (D * 86400 + st) / 86400 = D).
  { intros D. rewrite Z.div_add_l by lia. rewrite (Z.div_small st 86400) by lia. lia. }
  destruct (d * 86400 + et <=? d * 86400 + st) eqn:E1;
    destruct (_ <=? now0) eqn:E2; cbn [fst snd] in Ht, Hd |- *;
    [ replace (d * 86400 + st + 86400) with ((d + 1) * 86400 + st) in Hd by lia
    | idtac
    | replace (d * 86400 + st + 86400) with ((d + 1) * 86400 + st) in Hd by lia
    | idtac ];
    rewrite key in Hd; rewrite Hd;
    repeat match goal with |- context [if ?b then _ else _] => destruct b eqn:? end;
    repeat match goal with
           | E : (_ <=? _) = true |- _ => apply Z.leb_le in E
           | E : (_ <=? _) = false |- _ => apply Z.leb_gt in E
           end;
    first [ f_equal; lia | exfalso; lia ].
Qed.

(** C3 (counterexample). With the spec's range (22:00-23:00 in UTC, clock
    at 2024-01-01T10:00:00Z = 1704103200) [random.randint(0, 3600)] may
    return 3600, and [_range_job] then arms the job for 23:00:00Z itself,
    which is not inside the half-open window [22:00Z, 23:00Z). *)
Lemma range_job_can_fire_at_window_end :
  (forall a b : Z, a <= b -> a <= (fun _ b' => b') a b <= b) /\
  option_map job_trigger
    (find_job (snd (_range_job 1 (PyStr "22:00") (PyStr "23:00") 1704103200
                      (fun _ b => b) empty_scheduler)) 1)
    = Some (DateTrigger 1704150000) /\
  ~ (1704150000 < 1704150000).
Proof. split; [intros; lia|]. split; [reflexivity|lia]. Qed.

(** C3 (amended). For the spec's scenario, [convert_range_to_utc] gives
    the window (2024-01-01T22:00Z, 2024-01-01T23:00Z) and [_range_job],
    given those boundaries as "HH:MM" strings at the same clock reading,
    computes that same window. In general, whenever the window
    [_range_job] computes is [(S, E)], it arms a date trigger at an instant
    of the closed interval [S, E] (the end included), for every value
    [random.randint(0, E - S)] may return. *)
Theorem range_job_fires_in_closed_window (chat : Z) (s e : pyval) (now : Z)
    (randint : Z -> Z -> Z) (st : WorkoutScheduler) (S E : Z)
    (Hr : forall a b, a <= b -> a <= randint a b <= b)
    (Hw : range_window s e now = Ok (S, E)) :
  convert_range_to_utc "22:00" "23:00" (Some "UTC") 1704103200 = Ok (1704146400, 1704150000) /\
  range_window (PyStr "22:00") (PyStr "23:00") 1704103200 = Ok (1704146400, 1704150000) /\
  fst (_range_job chat s e now randint st) = Ok tt /\
  exists f, option_map job_trigger (find_job (snd (_range_job chat s e now randint st)) chat)
              = Some (DateTrigger f) /\ S <= f <= E.
Proof.
  split; [reflexivity|]. split; [reflexivity|].
  destruct (range_job_arms chat s e now randint st S E Hw) as [Hok Hfind].
  pose proof (range_window_ordered _ _ _ _ _ Hw) as Hlt.
  split; [exact Hok|]. exists (S + randint 0 (E - S)). rewrite Hfind. split; [reflexivity|].
  specialize (Hr 0 (E - S) ltac:(lia)). lia.
Qed.

Lemma range_job_fires_in_closed_window_witness :
  ((forall a b : Z, a <= b -> a <= (fun a' b' => (a' + b') / 2) a b <= b) /\
   range_window (PyStr "22:00") (PyStr "23:00") 1704103200 = Ok (1704146400, 1704150000)) /\
  (convert_range_to_utc "22:00" "23:00" (Some "UTC") 1704103200 = Ok (1704146400, 1704150000) /\
   range_window (PyStr "22:00") (PyStr "23:00") 1704103200 = Ok (1704146400, 1704150000) /\
   fst (_range_job 1 (PyStr "22:00") (PyStr "23:00") 1704103200 (fun a b => (a + b) / 2)
          empty_scheduler) = Ok tt /\
   exists f, option_map job_trigger
               (find_job (snd (_range_job 1 (PyStr "22:00") (PyStr "23:00") 1704103200
                                 (fun a b => (a + b) / 2) empty_scheduler)) 1)
             = Some (DateTrigger f) /\ 1704146400 <= f <= 1704150000).
Proof.
  split; [split; [intros a b Hab; split; [apply Z.div_le_lower_bound | apply Z.div_le_upper_bound]; lia
                 | reflexivity]|].
  apply (range_job_fires_in_closed_window 1 (PyStr "22:00") (PyStr "23:00") 1704103200
           (fun a b => (a + b) / 2) empty_scheduler 1704146400 1704150000).
  - intros a b Hab. split; [apply Z.div_le_lower_bound | apply Z.div_le_upper_bound]; lia.
  - reflexivity.
Defined.

(** C2 (code bug, counterexample). A range job armed at 2024-01-01T10:00:00Z for
    22:00-23:00 UTC ([randint] returning 1800) fires at 22:30Z. The re-arm
    recomputes the window from the clock: it is again
    [22:00Z, 23:00Z] of 2024-01-01, not the prior window advanced by 24
    hours, and with [randint] returning 600 the new run date 22:10Z is
    already past, so the one-shot date trigger is missed and the chat gets
    no further notification. *)
Lemma range_rearm_same_window_counterexample :
  range_window (PyStr "22:00") (PyStr "23:00") 1704103200 = Ok (1704146400, 1704150000) /\
  find_job (snd (_range_job 1 (PyStr "22:00") (PyStr "23:00") 1704103200
                   (fun _ _ => 1800) empty_scheduler)) 1 =
    Some {| job_id := 1; job_func := _wrap 1 "range" (Some (PyStr "22:00")) (Some (PyStr "23:00"));
            job_trigger := DateTrigger 1704148200 |} /\
  range_window (PyStr "22:00") (PyStr "23:00") 1704148200 = Ok (1704146400, 1704150000) /\
  (1704146400, 1704150000) <> (1704146400 + DAY, 1704150000 + DAY) /\
  let armed := {| job_id := 1; job_func := _wrap 1 "range" (Some (PyStr "22:00")) (Some (PyStr "23:00"));
                  job_trigger := DateTrigger 1704148200 |} in
  option_map job_trigger
    (find_job (snd (fire armed (Ok tt) 1704148200 (fun _ _ => 600)
                     (snd (_range_job 1 (PyStr "22:00") (PyStr "23:00") 1704103200
                             (fun _ _ => 1800) empty_scheduler)))) 1)
    = Some (DateTrigger 1704147000).
Proof.
  split; [reflexivity|]. split; [reflexivity|]. split; [reflexivity|].
  split; [unfold DAY; intros H; injection H; lia|]. reflexivity.
Qed.

(** C2 (code bug). Let a range job be armed by [_range_job] with
    boundary strings [s], [e] at clock reading [now0], over the window
    [(S, E)]. When it fires at instant [t] and the dispatch callback
    returns normally, the wrapper re-arms it through [_range_job] with the
    same strings: the new run date lies in the window recomputed from [t]
    ([range_window s e t]), not in [(S, E)] advanced by 24 hours. If [t]
    lies in [S, E) on [S]'s UTC date, the recomputed window is [(S, E)]
    itself, so the re-armed run date can be on the same day and before
    [t]. *)
Theorem range_rearm_recomputes_window (chat : Z) (s e : string) (now0 t : Z)
    (randint : Z -> Z -> Z) (st : WorkoutScheduler) (S E : Z)
    (Hr : forall a b, a <= b -> a <= randint a b <= b)
    (Hw : range_window (PyStr s) (PyStr e) now0 = Ok (S, E)) :
  let st1 := snd (_range_job chat (PyStr s) (PyStr e) now0 randint st) in
  exists j S' E' f,
    find_job st1 chat = Some j /\
    range_window (PyStr s) (PyStr e) t = Ok (S', E') /\
    fst (fire j (Ok tt) t randint st1) = Ok tt /\
    option_map job_trigger (find_job (snd (fire j (Ok tt) t randint st1)) chat)
      = Some (DateTrigger f) /\
    S' <= f <= E' /\
    (S <= t < E -> t / DAY = S / DAY -> (S', E') = (S, E)).
Proof.
  intros st1.
  destruct (range_job_arms chat (PyStr s) (PyStr e) now0 randint st S E Hw) as [_ Hfind].
  pose proof (range_window_shape _ _ _ _ Hw) as [bs [be [Hbs [Hbe Hshape]]]].
  pose proof (Hshape t) as Ht.
  destruct (window_of bs be t) as [S' E'] eqn:Hw'.
  pose proof (range_window_ordered _ _ _ _ _ Ht) as Hlt'.
  pose proof (range_window_nonempty_strings _ _ _ _ Hw) as Htruthy.
  set (j := {| job_id := chat; job_func := _wrap chat "range" (Some (PyStr s)) (Some (PyStr e));
               job_trigger := DateTrigger (S + randint 0 (E - S)) |}).
  set (st2 := snd (remove_job chat st1)).
  assert (Hfire : fire j (Ok tt) t randint st1 =
                  _range_job chat (PyStr s) (PyStr e) t randint st2).
  { unfold fire, run_wrapped, bind, lift. cbn [j job_trigger job_func w_mode w_start w_end _wrap w_chat_id].
    unfold remove_job at 1. cbn [fst snd]. rewrite Htruthy. reflexivity. }
  destruct (range_job_arms chat (PyStr s) (PyStr e) t randint st2 S' E' Ht) as [Hok2 Hfind2].
  exists j, S', E', (S' + randint 0 (E' - S')).
  split; [exact Hfind|]. split; [exact Ht|].
  rewrite Hfire. split; [exact Hok2|]. rewrite Hfind2. split; [reflexivity|].
  split; [specialize (Hr 0 (E' - S') ltac:(lia)); lia|].
  intros Hin Hday.
  rewrite Hshape in Hw. injection Hw as Hw0.
  rewrite <- Hw', <- Hw0. apply window_of_same_day; [exact Hbs | exact Hbe | |];
    rewrite Hw0; [exact Hin | exact Hday].
Qed.

Lemma range_rearm_recomputes_window_witness :
  ((forall a b : Z, a <= b -> a <= (fun a' _ => a') a b <= b) /\
   range_window (PyStr "22:00") (PyStr "23:00") 1704103200 = Ok (1704146400, 1704150000)) /\
  (let st1 := snd (_range_job 1 (PyStr "22:00") (PyStr "23:00") 1704103200
                     (fun a _ => a) empty_scheduler) in
   exists j S' E' f,
     find_job st1 1 = Some j /\
     range_window (PyStr "22:00") (PyStr "23:00") 1704148200 = Ok (S', E') /\
     fst (fire j (Ok tt) 1704148200 (fun a _ => a) st1) = Ok tt /\
     option_map job_trigger (find_job (snd (fire j (Ok tt) 1704148200 (fun a _ => a) st1)) 1)
       = Some (DateTrigger f) /\
     S' <= f <= E' /\
     (1704146400 <= 1704148200 < 1704150000 -> 1704148200 / DAY = 1704146400 / DAY ->
      (S', E') = (1704146400, 1704150000))).
Proof.
  split; [split; [intros; lia | reflexivity]|].
  apply (range_rearm_recomputes_window 1 "22:00" "23:00" 1704103200 1704148200
           (fun a _ => a) empty_scheduler 1704146400 1704150000).
  - intros; lia.
  - reflexivity.
Defined.

Lemma session_points_all_done (exs : list exercise) (cs : list bool) :
  length cs = length exs -> forallb (fun b => b) cs = true ->
  session_points (zip_with set_done exs cs) =
    fold_right (fun e acc => coalesce (ex_points e) 1 + acc) 0 exs.
Proof.
  revert cs. induction exs as [|e exs IH]; intros [|c cs] Hlen Hall;
    cbn in Hlen |- *; try discriminate Hlen; [reflexivity|].
  apply andb_true_iff in Hall as [-> Hall].
  unfold session_points in IH. rewrite (IH cs); [reflexivity | lia | exact Hall].
Qed.

Lemma forallb_insert_false (cs : list bool) (i : nat) :
  (i < length cs)%nat -> forallb (fun b => b) (<[i := false]> cs) = false.
Proof.
  intros Hi. destruct (forallb (fun b => b) (<[i := false]> cs)) eqn:E; [|reflexivity].
  exfalso. rewrite forallb_forall in E.
  assert (Hin : In false (<[i := false]> cs)).
  { apply list_elem_of_In. apply list_elem_of_lookup_2 with i.
    apply list_lookup_insert_eq. exact Hi. }
  specialize (E false Hin). discriminate E.
Qed.

Lemma py_setitem_in_range {A} (l : list A) (i : Z) (v : A) :
  0 <= i < Z.of_nat (length l) -> py_setitem l i v = Ok (<[Z.to_nat i := v]> l).
Proof.
  intros Hi. unfold py_setitem.
  destruct (i <? 0) eqn:E; [apply Z.ltb_lt in E; lia|].
  replace ((0 <=? i) && (i <? Z.of_nat (length l))) with true; [reflexivity|].
  symmetry. apply andb_true_iff. split; [apply Z.leb_le | apply Z.ltb_lt]; lia.
Qed.

Lemma update_daily_log_existing (user_id date : Z) (ex : sessions) (difficulty : option string)
    (pts : option Z) (w : world) (old : daily_log) :
  daily_logs (db w) !! (user_id, date) = Some old ->
  update_daily_log user_id date ex difficulty pts w =
    (Ok tt, set_db w (with_logs (db w)
       (<[(user_id, date) := {| exercises_done := ex;
                               difficulty_rate := match difficulty with
                                                  | Some r => Some r
                                                  | None => difficulty_rate old
                                                  end;
                               points := coalesce pts 0 |}]> (daily_logs (db w))))).
Proof. intros H. unfold update_daily_log. rewrite H. reflexivity. Qed.

(** C5. Toggling an exercise of any session (at a valid index of a
    non-empty list) stores the new flags. When all flags are then set, the
    session is completed: the day's row gets the points of the done
    entries, each weighing its ["points"] value or 1, which is the sum of
    all the entries' weights; for a session other than ["additional"] the
    row also gets difficulty ["completed"] and the chat gets the workout
    done message, for ["additional"] the tag is left as it was and the chat
    gets the additional done message; then the menu update and the
    closing message follow. Otherwise the session stays in progress: the
    difficulty is left as it was, no completion points are awarded (the
    row's points are 0), and the chat gets the updated workout card.
    Setting a flag to not-done always leaves the session in progress. No
    other log row changes. *)
Theorem handle_exercise_callback_toggle (today chat : Z) (cb : ExerciseCallback)
    (w : world) (u : user_row) (l : daily_log)
    (Hu : find (fun u => chat_id u =? chat) (users (db w)) = Some u)
    (Hl : daily_logs (db w) !! (id u, today) = Some l)
    (Hi : 0 <= cb_index cb < Z.of_nat (length (_log_exercises (Some l) (cb_session cb)))) :
  let exs := _log_exercises (Some l) (cb_session cb) in
  let completed := <[Z.to_nat (cb_index cb) := cb_completed cb]> (map done_flag exs) in
  let exs' := zip_with set_done exs completed in
  let stored := _store_log_exercises (Some l) (cb_session cb) exs' in
  let additional := String.eqb (cb_session cb) "additional" in
  let w' := snd (handle_exercise_callback today chat cb w) in
  exs <> [] /\
  fst (handle_exercise_callback today chat cb w) = Ok tt /\
  (forallb (fun b => b) completed = true ->
     daily_logs (db w') =
       <[(id u, today) := {| exercises_done := stored;
                             difficulty_rate := if additional then difficulty_rate l
                                                else Some "completed";
                             points := session_points exs' |}]> (daily_logs (db w)) /\
     outbox w' = (outbox w ++ [(chat, if additional then AdditionalDone (session_points exs')
                                     else WorkoutDone (session_points exs'));
                              (chat, MenuUpdated); (chat, Great)])%list /\
     session_points exs' = fold_right (fun e acc => coalesce (ex_points e) 1 + acc) 0 exs) /\
  (forallb (fun b => b) completed = false ->
     daily_logs (db w') =
       <[(id u, today) := {| exercises_done := stored; difficulty_rate := difficulty_rate l;
                             points := 0 |}]> (daily_logs (db w)) /\
     outbox w' = (outbox w ++ [(chat, WorkoutCard today exs' (cb_session cb)); (chat, Updated)])%list) /\
  (cb_completed cb = false -> forallb (fun b => b) completed = false).
Proof.
  intros exs completed exs' stored additional w'. fold exs in Hi.
  assert (Hlen : length completed = length exs).
  { unfold completed. rewrite length_insert, length_map. reflexivity. }
  split; [intros E; rewrite E in Hi; cbn in Hi; lia|].
  assert (Hrun : handle_exercise_callback today chat cb w =
    (if forallb (fun b => b) completed then
       (Ok tt, {| db := with_logs (db w)
                   (<[(id u, today) := {| exercises_done := stored;
                                          difficulty_rate := if additional then difficulty_rate l
                                                             else Some "completed";
                                          points := session_points exs' |}]> (daily_logs (db w)));
                  outbox := outbox w ++ [(chat, if additional then AdditionalDone (session_points exs')
                                                else WorkoutDone (session_points exs'));
                                         (chat, MenuUpdated); (chat, Great)] |})
     else
       (Ok tt, {| db := with_logs (db w)
                   (<[(id u, today) := {| exercises_done := stored; difficulty_rate := difficulty_rate l;
                                          points := 0 |}]> (daily_logs (db w)));
                  outbox := outbox w ++ [(chat, WorkoutCard today exs' (cb_session cb)); (chat, Updated)] |}))).
  { unfold handle_exercise_callback, bind, get_user, load_daily_log, lift, answer, ret.
    rewrite Hu, Hl. cbv zeta.
    replace (cb_index cb =? -1) with false by (symmetry; apply Z.eqb_neq; lia).
    fold exs. rewrite (py_setitem_in_range _ _ _ ltac:(rewrite length_map; exact Hi)).
    fold completed. fold exs'. fold stored.
    rewrite (update_daily_log_existing _ _ _ _ _ _ l Hl).
    fold additional. destruct (forallb (fun b => b) completed); [destruct additional|].
    - unfold add_points. cbn [db set_db with_logs daily_logs]. rewrite lookup_insert_eq.
      cbn [db outbox set_db with_logs daily_logs exercises_done difficulty_rate points coalesce].
      rewrite insert_insert_eq, Z.add_0_l, <- !app_assoc. reflexivity.
    - erewrite update_daily_log_existing;
        [| cbn [db set_db with_logs daily_logs]; apply lookup_insert_eq].
      cbn [db outbox set_db with_logs daily_logs users next_user_id plan_for_date].
      rewrite insert_insert_eq, <- !app_assoc. reflexivity.
    - cbn [db outbox set_db coalesce]. rewrite <- app_assoc. reflexivity. }
  rewrite Hrun. split; [destruct (forallb _ _); reflexivity|].
  split; [|split].
  - intros E. unfold w'. rewrite Hrun, E. split; [reflexivity|]. split; [reflexivity|].
    apply session_points_all_done; assumption.
  - intros E. unfold w'. rewrite Hrun, E. split; reflexivity.
  - intros E. unfold completed. rewrite E. apply forallb_insert_false.
    rewrite length_map. lia.
Qed.

(** [handle_exercise_callback_toggle] at two inputs: the main session
    of [sample_log] (one of two flags set, the second one now set too),
    and the additional session of [additional_pending_log]. *)
Lemma handle_exercise_callback_toggle_witness :
  (let w := sample_world {[ (7, 100) := sample_log None 0 ]} in
   let cb := {| cb_session := "main"; cb_index := 1; cb_completed := true |} in
   (find (fun u => chat_id u =? 70) (users (db w)) = Some sample_user /\
    daily_logs (db w) !! (id sample_user, 100) = Some (sample_log None 0) /\
    0 <= cb_index cb < Z.of_nat (length (_log_exercises (Some (sample_log None 0)) (cb_session cb)))) /\
   (let exs := _log_exercises (Some (sample_log None 0)) (cb_session cb) in
    let completed := <[Z.to_nat (cb_index cb) := cb_completed cb]> (map done_flag exs) in
    let exs' := zip_with set_done exs completed in
    let stored := _store_log_exercises (Some (sample_log None 0)) (cb_session cb) exs' in
    let additional := String.eqb (cb_session cb) "additional" in
    let w' := snd (handle_exercise_callback 100 70 cb w) in
    exs <> [] /\
    fst (handle_exercise_callback 100 70 cb w) = Ok tt /\
    (forallb (fun b => b) completed = true ->
       daily_logs (db w') =
         <[(id sample_user, 100) := {| exercises_done := stored;
                                       difficulty_rate := if additional
                                                          then difficulty_rate (sample_log None 0)
                                                          else Some "completed";
                                       points := session_points exs' |}]> (daily_logs (db w)) /\
       outbox w' = (outbox w ++ [(70, if additional then AdditionalDone (session_points exs')
                                     else WorkoutDone (session_points exs'));
                                (70, MenuUpdated); (70, Great)])%list /\
       session_points exs' = fold_right (fun e acc => coalesce (ex_points e) 1 + acc) 0 exs) /\
    (forallb (fun b => b) completed = false ->
       daily_logs (db w') =
         <[(id sample_user, 100) := {| exercises_done := stored;
                                       difficulty_rate := difficulty_rate (sample_log None 0);
                                       points := 0 |}]> (daily_logs (db w)) /\
       outbox w' = (outbox w ++ [(70, WorkoutCard 100 exs' (cb_session cb)); (70, Updated)])%list) /\
    (cb_completed cb = false -> forallb (fun b => b) completed = false))) /\
  (let w := sample_world {[ (7, 100) := additional_pending_log ]} in
   let cb := {| cb_session := "additional"; cb_index := 0; cb_completed := true |} in
   (find (fun u => chat_id u =? 70) (users (db w)) = Some sample_user /\
    daily_logs (db w) !! (id sample_user, 100) = Some (additional_pending_log) /\
    0 <= cb_index cb < Z.of_nat (length (_log_exercises (Some (additional_pending_log)) (cb_session cb)))) /\
   (let exs := _log_exercises (Some (additional_pending_log)) (cb_session cb) in
    let completed := <[Z.to_nat (cb_index cb) := cb_completed cb]> (map done_flag exs) in
    let exs' := zip_with set_done exs completed in
    let stored := _store_log_exercises (Some (additional_pending_log)) (cb_session cb) exs' in
    let additional := String.eqb (cb_session cb) "additional" in
    let w' := snd (handle_exercise_callback 100 70 cb w) in
    exs <> [] /\
    fst (handle_exercise_callback 100 70 cb w) = Ok tt /\
    (forallb (fun b => b) completed = true ->
       daily_logs (db w') =
         <[(id sample_user, 100) := {| exercises_done := stored;
                                       difficulty_rate := if additional
                                                          then difficulty_rate (additional_pending_log)
                                                          else Some "completed";
                                       points := session_points exs' |}]> (daily_logs (db w)) /\
       outbox w' = (outbox w ++ [(70, if additional then AdditionalDone (session_points exs')
                                     else WorkoutDone (session_points exs'));
                                (70, MenuUpdated); (70, Great)])%list /\
       session_points exs' = fold_right (fun e acc => coalesce (ex_points e) 1 + acc) 0 exs) /\
    (forallb (fun b => b) completed = false ->
       daily_logs (db w') =
         <[(id sample_user, 100) := {| exercises_done := stored;
                                       difficulty_rate := difficulty_rate (additional_pending_log);
                                       points := 0 |}]> (daily_logs (db w)) /\
       outbox w' = (outbox w ++ [(70, WorkoutCard 100 exs' (cb_session cb)); (70, Updated)])%list) /\
    (cb_completed cb = false -> forallb (fun b => b) completed = false))).
Proof.
  split.
  - cbv zeta. split.
    + split; [reflexivity|]. split; [reflexivity|]. simpl. lia.
    + apply (handle_exercise_callback_toggle 100 70
               {| cb_session := "main"; cb_index := 1; cb_completed := true |}
               (sample_world {[ (7, 100) := sample_log None 0 ]}) sample_user (sample_log None 0));
        [reflexivity | reflexivity | simpl; lia].
  - cbv zeta. split.
    + split; [reflexivity|]. split; [reflexivity|]. simpl. lia.
    + apply (handle_exercise_callback_toggle 100 70
               {| cb_session := "additional"; cb_index := 0; cb_completed := true |}
               (sample_world {[ (7, 100) := additional_pending_log ]}) sample_user
               additional_pending_log);
        [reflexivity | reflexivity | simpl; lia].
Defined.

Lemma or_skipped_stable (s : option string) : or_skipped (Some (or_skipped s)) = or_skipped s.
Proof.
  destruct s as [r|]; cbn; [|reflexivity].
  destruct (String.eqb r "") eqn:E; cbn; [reflexivity|]. rewrite E. reflexivity.
Qed.

(** C6 (counterexample). A log of yesterday that is tagged ["completed"]
    with 0 points (a plan whose weights are all 0) is not turned into
    ["skipped"]: [difficulty_rate or "skipped"] keeps the tag. *)
Lemma close_previous_day_keeps_existing_tag :
  daily_logs (db (snd (close_previous_day_if_pending 7 100
                        (sample_world {[ (7, 99) := sample_log (Some "completed") 0 ]}))))
    !! (7, 99) = Some (sample_log (Some "completed") 0).
Proof. reflexivity. Qed.

(** C6 (amended). [close_previous_day_if_pending user_id today] returns
    normally. When yesterday's log exists with 0 points, it rewrites that
    row with its stored exercises, 0 points and the tag it had, or
    ["skipped"] when it had none; when the log is absent or has points, it
    changes nothing. Nothing else in the world changes, and a second run
    on the resulting world changes nothing either. *)
Theorem close_previous_day_if_pending_idempotent (user_id today : Z) (w : world) :
  let k := (user_id, today - 1) in
  let logs := daily_logs (db w) in
  let w1 := snd (close_previous_day_if_pending user_id today w) in
  fst (close_previous_day_if_pending user_id today w) = Ok tt /\
  w1 = set_db w (with_logs (db w)
         match logs !! k with
         | Some prev =>
             if points prev =? 0 then
               <[k := {| exercises_done := exercises_done prev;
                         difficulty_rate := Some (or_skipped (difficulty_rate prev));
                         points := 0 |}]> logs
             else logs
         | None => logs
         end) /\
  close_previous_day_if_pending user_id today w1 = (Ok tt, w1).
Proof.
  destruct w as [[us n logs plan] ob]. cbv zeta.
  unfold close_previous_day_if_pending, bind, load_daily_log, ret. cbn [db daily_logs].
  destruct (logs !! (user_id, today - 1)) as [prev|] eqn:E.
  - destruct (points prev =? 0) eqn:P; cbn [negb].
    + erewrite (update_daily_log_existing _ _ _ _ _ _ prev); [|exact E]. cbn [fst snd].
      split; [reflexivity|]. split; [reflexivity|].
      cbn [db set_db with_logs daily_logs]. rewrite lookup_insert_eq.
      cbn [points coalesce negb Z.eqb difficulty_rate exercises_done].
      erewrite update_daily_log_existing; [|cbn [db set_db with_logs daily_logs]; apply lookup_insert_eq].
      cbn [db daily_logs set_db with_logs points difficulty_rate exercises_done coalesce].
      rewrite or_skipped_stable, insert_insert_eq. reflexivity.
    + cbn [fst snd]. split; [reflexivity|]. split; [reflexivity|].
      cbn [db daily_logs set_db with_logs]. rewrite E, P. reflexivity.
  - cbn [fst snd]. split; [reflexivity|]. split; [reflexivity|].
    cbn [db daily_logs set_db with_logs]. rewrite E. reflexivity.
Qed.

(** C7 (counterexample). Skip is gated on the points, not on the tag. A
    main session tagged ["completed"] with 0 points is overwritten to
    ["skipped"]; a session with no tag whose day holds 4 points (from the
    additional session) is refused with the notice. *)
Lemma skip_gate_is_points_counterexample :
  let cb := {| cb_session := "main"; cb_index := -1; cb_completed := false |} in
  daily_logs (db (snd (handle_exercise_callback 100 70 cb
                         (sample_world {[ (7, 100) := sample_log (Some "completed") 0 ]}))))
    !! (7, 100) =
    Some {| exercises_done := SessDict [("main", sample_main)];
            difficulty_rate := Some "skipped"; points := 0 |} /\
  handle_exercise_callback 100 70 cb (sample_world {[ (7, 100) := sample_log None 4 ]}) =
    (Ok tt, {| db := db (sample_world {[ (7, 100) := sample_log None 4 ]});
               outbox := [(70, AlreadyCompleted)] |}).
Proof. split; reflexivity. Qed.

(** C7 (amended). A skip of a session other than ["additional"] (index
    -1) on an existing log is refused with the ["already completed"]
    notice, leaving the database as it was, exactly when the day's points
    are nonzero. When they are 0 it rewrites the day's row with difficulty
    ["skipped"] and 0 points, keeping the stored exercises, whatever the
    previous tag. *)
Theorem handle_exercise_callback_skip (today chat : Z) (cb : ExerciseCallback)
    (w : world) (u : user_row) (l : daily_log)
    (Hu : find (fun u => chat_id u =? chat) (users (db w)) = Some u)
    (Hl : daily_logs (db w) !! (id u, today) = Some l)
    (Hs : String.eqb (cb_session cb) "additional" = false)
    (Hidx : cb_index cb = -1) :
  handle_exercise_callback today chat cb w =
    if points l =? 0 then
      (Ok tt, {| db := with_logs (db w)
                  (<[(id u, today) :=
                      {| exercises_done := _store_log_exercises (Some l) (cb_session cb)
                                             (_log_exercises (Some l) (cb_session cb));
                         difficulty_rate := Some "skipped"; points := 0 |}]> (daily_logs (db w)));
                 outbox := outbox w ++ [(chat, DaySkipped); (chat, Ack)] |})
    else (Ok tt, {| db := db w; outbox := outbox w ++ [(chat, AlreadyCompleted)] |}).
Proof.
  unfold handle_exercise_callback, bind, get_user, load_daily_log, lift, answer, ret.
  rewrite Hu, Hl. cbv zeta. rewrite Hidx, Hs, Z.eqb_refl.
  destruct (points l =? 0); cbn [negb].
  - rewrite (update_daily_log_existing _ _ _ _ _ _ l Hl).
    cbn [db outbox set_db coalesce]. rewrite <- app_assoc. reflexivity.
  - reflexivity.
Qed.

Lemma handle_exercise_callback_skip_witness :
  let w := sample_world {[ (7, 100) := sample_log None 0 ]} in
  let cb := {| cb_session := "main"; cb_index := -1; cb_completed := false |} in
  (find (fun u => chat_id u =? 70) (users (db w)) = Some sample_user /\
   daily_logs (db w) !! (id sample_user, 100) = Some (sample_log None 0) /\
   String.eqb (cb_session cb) "additional" = false /\ cb_index cb = -1) /\
  handle_exercise_callback 100 70 cb w =
    (if points (sample_log None 0) =? 0 then
      (Ok tt, {| db := with_logs (db w)
                  (<[(id sample_user, 100) :=
                      {| exercises_done := _store_log_exercises (Some (sample_log None 0)) (cb_session cb)
                                             (_log_exercises (Some (sample_log None 0)) (cb_session cb));
                         difficulty_rate := Some "skipped"; points := 0 |}]> (daily_logs (db w)));
                 outbox := outbox w ++ [(70, DaySkipped); (70, Ack)] |})
    else (Ok tt, {| db := db w; outbox := outbox w ++ [(70, AlreadyCompleted)] |})).
Proof.
  intros w cb. split; [repeat split; reflexivity|].
  apply (handle_exercise_callback_skip 100 70 cb w sample_user (sample_log None 0));
    reflexivity.
Defined.

(** C8. Completing the additional session (its last flag set at a valid
    index) leaves the day's tag alone, but the day's points end up as the
    session's points alone, not the old points plus them: the toggle's
    own [update_daily_log] call, with no points given, writes
    [excluded.points = COALESCE(NULL, 0) = 0] over the old value before
    [add_points] adds the delta. *)
Theorem additional_completion_overwrites_points (today chat : Z) (cb : ExerciseCallback)
    (w : world) (u : user_row) (l : daily_log)
    (Hu : find (fun u => chat_id u =? chat) (users (db w)) = Some u)
    (Hl : daily_logs (db w) !! (id u, today) = Some l)
    (Hs : cb_session cb = "additional")
    (Hi : 0 <= cb_index cb < Z.of_nat (length (_log_exercises (Some l) (cb_session cb))))
    (Hall : forallb (fun b => b)
              (<[Z.to_nat (cb_index cb) := cb_completed cb]>
                 (map done_flag (_log_exercises (Some l) (cb_session cb)))) = true) :
  let exs := _log_exercises (Some l) (cb_session cb) in
  let completed := <[Z.to_nat (cb_index cb) := cb_completed cb]> (map done_flag exs) in
  let exs' := zip_with set_done exs completed in
  let stored := _store_log_exercises (Some l) (cb_session cb) exs' in
  handle_exercise_callback today chat cb w =
    (Ok tt, {| db := with_logs (db w)
                 (<[(id u, today) := {| exercises_done := stored;
                                        difficulty_rate := difficulty_rate l;
                                        points := session_points exs' |}]> (daily_logs (db w)));
               outbox := outbox w ++ [(chat, AdditionalDone (session_points exs'));
                                      (chat, MenuUpdated); (chat, Great)] |}).
Proof.
  intros exs completed exs' stored. fold exs in Hi. fold exs completed in Hall.
  unfold handle_exercise_callback, bind, get_user, load_daily_log, lift, answer, ret.
  rewrite Hu, Hl. cbv zeta.
  replace (cb_index cb =? -1) with false by (symmetry; apply Z.eqb_neq; lia).
  fold exs. rewrite (py_setitem_in_range _ _ _ ltac:(rewrite length_map; exact Hi)).
  fold completed. fold exs'. fold stored.
  rewrite (update_daily_log_existing _ _ _ _ _ _ l Hl).
  rewrite Hall, Hs. cbn [String.eqb Ascii.eqb Bool.eqb andb].
  unfold add_points. cbn [db set_db with_logs daily_logs]. rewrite lookup_insert_eq.
  cbn [db outbox set_db with_logs daily_logs exercises_done difficulty_rate points coalesce].
  rewrite insert_insert_eq, Z.add_0_l, <- !app_assoc. reflexivity.
Qed.

Lemma additional_completion_overwrites_points_witness :
  let w := sample_world {[ (7, 100) := additional_pending_log ]} in
  let cb := {| cb_session := "additional"; cb_index := 0; cb_completed := true |} in
  (find (fun u => chat_id u =? 70) (users (db w)) = Some sample_user /\
   daily_logs (db w) !! (id sample_user, 100) = Some additional_pending_log /\
   cb_session cb = "additional" /\
   0 <= cb_index cb < Z.of_nat (length (_log_exercises (Some additional_pending_log) (cb_session cb))) /\
   forallb (fun b => b)
     (<[Z.to_nat (cb_index cb) := cb_completed cb]>
        (map done_flag (_log_exercises (Some additional_pending_log) (cb_session cb)))) = true) /\
  (let exs := _log_exercises (Some additional_pending_log) (cb_session cb) in
   let completed := <[Z.to_nat (cb_index cb) := cb_completed cb]> (map done_flag exs) in
   let exs' := zip_with set_done exs completed in
   let stored := _store_log_exercises (Some additional_pending_log) (cb_session cb) exs' in
   handle_exercise_callback 100 70 cb w =
     (Ok tt, {| db := with_logs (db w)
                  (<[(id sample_user, 100) := {| exercises_done := stored;
                                                 difficulty_rate := difficulty_rate additional_pending_log;
                                                 points := session_points exs' |}]> (daily_logs (db w)));
                outbox := outbox w ++ [(70, AdditionalDone (session_points exs'));
                                       (70, MenuUpdated); (70, Great)] |})) /\
  option_map points (daily_logs (db (snd (handle_exercise_callback 100 70 cb w))) !! (7, 100)) = Some 1 /\
  option_map difficulty_rate (daily_logs (db (snd (handle_exercise_callback 100 70 cb w))) !! (7, 100))
    = Some (Some "completed").
Proof.
  intros w cb. split; [|split].
  - split; [reflexivity|]. split; [reflexivity|]. split; [reflexivity|].
    split; [simpl; lia | reflexivity].
  - apply (additional_completion_overwrites_points 100 70 cb w sample_user additional_pending_log).
    + reflexivity.
    + reflexivity.
    + reflexivity.
    + simpl. lia.
    + reflexivity.
  - split; reflexivity.
Defined.

Lemma safe_send_forbidden_only (bot : bot_api)
    (Hbot : forall c r, bot c r = None \/ bot c r = Some TelegramForbiddenError)
    (chat : Z) (r : reply) (w : world) :
  safe_send bot chat r w = safe_send delivering_bot chat r w.
Proof. unfold safe_send. destruct (Hbot chat r) as [-> | ->]; reflexivity. Qed.

Lemma push_tail_forbidden_only (bot : bot_api)
    (Hbot : forall c r, bot c r = None \/ bot c r = Some TelegramForbiddenError)
    (chat user_id today : Z) (el : option daily_log) (exs : list exercise) (w : world) :
  push_tail bot chat user_id today el exs w = push_tail delivering_bot chat user_id today el exs w.
Proof.
  unfold push_tail, bind, ret.
  destruct el as [l|]; [destruct (negb (points l =? 0)); [reflexivity|]|];
    destruct (update_daily_log user_id today (SessList exs) None None w) as [[a|e] w1];
    solve [reflexivity | apply safe_send_forbidden_only; exact Hbot].
Qed.


Lemma close_previous_day_outbox (user_id today : Z) (w : world) :
  fst (close_previous_day_if_pending user_id today w) = Ok tt /\
  outbox (snd (close_previous_day_if_pending user_id today w)) = outbox w.
Proof.
  unfold close_previous_day_if_pending, bind, load_daily_log, ret. cbn [fst snd].
  destruct (daily_logs (db w) !! (user_id, today - 1)) as [prev|];
    [destruct (negb (points prev =? 0))|]; split; reflexivity.
Qed.

Lemma push_tail_delivering_ok (chat user_id today : Z) (el : option daily_log)
    (exs : list exercise) (w : world) :
  fst (push_tail delivering_bot chat user_id today el exs w) = Ok tt.
Proof.
  unfold push_tail, bind, ret.
  destruct el as [l|]; [destruct (negb (points l =? 0)); [reflexivity|]|]; reflexivity.
Qed.

(** C9. [safe_send] returns normally when the delivery succeeds or fails
    with [TelegramForbiddenError], and raises any other delivery error.
    For a bot whose deliveries only ever fail with
    [TelegramForbiddenError], [scheduled_push] behaves exactly as with a
    bot that delivers everything (same result, same world), and whenever
    it attempted a delivery it returned normally. *)
Theorem scheduled_push_swallows_forbidden (bot : bot_api)
    (Hbot : forall c r, bot c r = None \/ bot c r = Some TelegramForbiddenError)
    (today chat : Z) (w : world) :
  (forall (bot' : bot_api) (c : Z) (r : reply) (w' : world),
     fst (safe_send bot' c r w') =
       match bot' c r with
       | None => Ok tt
       | Some e => if decide (e = TelegramForbiddenError) then Ok tt else Raise e
       end) /\
  scheduled_push bot today chat w = scheduled_push delivering_bot today chat w /\
  (fst (scheduled_push bot today chat w) = Ok tt \/
   outbox (snd (scheduled_push bot today chat w)) = outbox w).
Proof.
  assert (Hpush : scheduled_push bot today chat w = scheduled_push delivering_bot today chat w).
  { unfold scheduled_push, bind, get_user, ret. cbn [fst snd].
    destruct (find (fun u => chat_id u =? chat) (users (db w))) as [u|]; [|reflexivity].
    destruct (close_previous_day_if_pending (id u) today w) as [[[]|e] w1]; [|reflexivity].
    unfold get_plan_for_date, load_daily_log.
    destruct (plan_for_date (db w1) (id u) today) as [p|].
    - destruct p as [[b l] t]. reflexivity.
    - rewrite (safe_send_forbidden_only bot Hbot).
      destruct (safe_send delivering_bot chat PlanUnavailable w1) as [[[]|e] w2]; [|reflexivity].
      apply push_tail_forbidden_only; exact Hbot. }
  split; [|split; [exact Hpush|]].
  - intros bot' c r w'. unfold safe_send.
    destruct (bot' c r) as [e|]; [|reflexivity].
    destruct e; reflexivity.
  - rewrite Hpush.
    unfold scheduled_push, bind, get_user, ret. cbn [fst snd].
    destruct (find (fun u => chat_id u =? chat) (users (db w))) as [u|]; [|left; reflexivity].
    pose proof (close_previous_day_outbox (id u) today w) as [Hc Ho].
    destruct (close_previous_day_if_pending (id u) today w) as [[[]|e] w1];
      cbn in Hc; [|discriminate Hc]. cbn in Ho.
    unfold get_plan_for_date, load_daily_log.
    destruct (plan_for_date (db w1) (id u) today) as [p|].
    + destruct p as [[b l] t]. right. exact Ho.
    + left. apply push_tail_delivering_ok.
Qed.

Lemma scheduled_push_swallows_forbidden_witness :
  (forall (c : Z) (r : reply),
     (fun _ _ => Some TelegramForbiddenError) c r = None \/
     (fun _ _ => Some TelegramForbiddenError) c r = Some TelegramForbiddenError) /\
  ((forall (bot' : bot_api) (c : Z) (r : reply) (w' : world),
     fst (safe_send bot' c r w') =
       match bot' c r with
       | None => Ok tt
       | Some e => if decide (e = TelegramForbiddenError) then Ok tt else Raise e
       end) /\
   scheduled_push (fun _ _ => Some TelegramForbiddenError) 100 70 (sample_world ∅) =
     scheduled_push delivering_bot 100 70 (sample_world ∅) /\
   (fst (scheduled_push (fun _ _ => Some TelegramForbiddenError) 100 70 (sample_world ∅)) = Ok tt \/
    outbox (snd (scheduled_push (fun _ _ => Some TelegramForbiddenError) 100 70 (sample_world ∅)))
      = outbox (sample_world ∅))).
Proof.
  split; [intros; right; reflexivity|].
  apply (scheduled_push_swallows_forbidden (fun _ _ => Some TelegramForbiddenError)).
  intros; right; reflexivity.
Defined.

(** C10. The middleware is registered on [dp.update], so it receives
    [Update] objects, which have no [chat] attribute: every update is
    handed on unchecked. With two users registered, a third chat that
    presses the profile button gets a row of its own through
    [ensure_profile], and the table holds three users. The same message
    seen by the middleware as a [Message] would have been refused. *)
Theorem access_middleware_update_passes_through :
  (forall (u : Update) (w : world), feed_update u w = listen_update (EvUpdate u) w) /\
  Z.of_nat (length (users (db two_user_world))) = MAX_USERS /\
  feed_update {| update_id := 1; update_message := Some third_chat_profile |} two_user_world =
    (Ok (Some tt),
     {| db := {| users := users (db two_user_world) ++
                          [ {| id := 3; chat_id := 3; nickname := Some "C"; weight := None;
                               height := None; age := None |} ];
                 next_user_id := 4; daily_logs := ∅; plan_for_date := fun _ _ => None |};
        outbox := [(3, ProfilePrompt)] |}) /\
  AccessMiddleware listen_update (EvMessage third_chat_profile) two_user_world =
    (Ok None, {| db := db two_user_world; outbox := [(3, NoSeats)] |}).
Proof.
  split; [intros u w; reflexivity|].
  split; [reflexivity|]. split; reflexivity.
Qed.

(** * Further properties *)

(** ** Statistics *)

Lemma insert_desc_perm (x : Z) (l : list Z) : Permutation (insert_desc x l) (x :: l).
Proof.
  induction l as [|y r IH]; cbn; [reflexivity|].
  destruct (y <? x); [reflexivity|].
  rewrite IH. apply perm_swap.
Qed.

Lemma sort_desc_perm (l : list Z) : Permutation (sort_desc l) l.
Proof.
  induction l as [|x r IH]; cbn; [reflexivity|].
  rewrite insert_desc_perm, IH. reflexivity.
Qed.

Lemma insert_asc_perm (x : Z) (l : list Z) : Permutation (insert_asc x l) (x :: l).
Proof.
  induction l as [|y r IH]; cbn; [reflexivity|].
  destruct (x <=? y); [reflexivity|].
  rewrite IH. apply perm_swap.
Qed.

Lemma sort_asc_perm (l : list Z) : Permutation (sort_asc l) l.
Proof.
  induction l as [|x r IH]; cbn; [reflexivity|].
  rewrite insert_asc_perm, IH. reflexivity.
Qed.

Lemma insert_desc_sorted (x : Z) (l : list Z) :
  StronglySorted Z.gt l -> ~ In x l -> StronglySorted Z.gt (insert_desc x l).
Proof.
  induction l as [|y r IH]; intros Hs Hx; cbn.
  - repeat constructor.
  - apply StronglySorted_inv in Hs as [Hr Hy]. rewrite List.Forall_forall in Hy.
    destruct (y <? x) eqn:E.
    + apply Z.ltb_lt in E. constructor; [constructor; [exact Hr|rewrite List.Forall_forall; exact Hy]|].
      constructor; [lia|]. rewrite List.Forall_forall. intros z Hz. specialize (Hy z Hz). lia.
    + apply Z.ltb_ge in E. assert (y <> x) by (intros ->; apply Hx; left; reflexivity).
      constructor; [apply IH; [exact Hr|intros H'; apply Hx; right; exact H']|].
      rewrite List.Forall_forall. intros z Hz.
      apply (Permutation_in _ (insert_desc_perm x r)) in Hz as [<-|Hz]; [lia|exact (Hy z Hz)].
Qed.

Lemma sort_desc_sorted (l : list Z) : List.NoDup l -> StronglySorted Z.gt (sort_desc l).
Proof.
  induction l as [|x r IH]; intros Hnd; cbn; [constructor|].
  apply NoDup_cons_iff in Hnd as [Hx Hr]. apply insert_desc_sorted; [exact (IH Hr)|].
  intros H. apply Hx. exact (Permutation_in _ (sort_desc_perm r) H).
Qed.

Lemma insert_asc_sorted (x : Z) (l : list Z) :
  StronglySorted Z.lt l -> ~ In x l -> StronglySorted Z.lt (insert_asc x l).
Proof.
  induction l as [|y r IH]; intros Hs Hx; cbn.
  - repeat constructor.
  - apply StronglySorted_inv in Hs as [Hr Hy]. rewrite List.Forall_forall in Hy.
    assert (y <> x) by (intros ->; apply Hx; left; reflexivity).
    destruct (x <=? y) eqn:E.
    + apply Z.leb_le in E. constructor; [constructor; [exact Hr|rewrite List.Forall_forall; exact Hy]|].
      constructor; [lia|]. rewrite List.Forall_forall. intros z Hz. specialize (Hy z Hz). lia.
    + apply Z.leb_gt in E.
      constructor; [apply IH; [exact Hr|intros H'; apply Hx; right; exact H']|].
      rewrite List.Forall_forall. intros z Hz.
      apply (Permutation_in _ (insert_asc_perm x r)) in Hz as [<-|Hz]; [lia|exact (Hy z Hz)].
Qed.

Lemma sort_asc_sorted (l : list Z) : List.NoDup l -> StronglySorted Z.lt (sort_asc l).
Proof.
  induction l as [|x r IH]; intros Hnd; cbn; [constructor|].
  apply NoDup_cons_iff in Hnd as [Hx Hr]. apply insert_asc_sorted; [exact (IH Hr)|].
  intros H. apply Hx. exact (Permutation_in _ (sort_asc_perm r) H).
Qed.

(** Two lists sorted strictly downwards with the same elements are
    equal. *)
Lemma sorted_gt_unique (l1 l2 : list Z) :
  StronglySorted Z.gt l1 -> StronglySorted Z.gt l2 -> (forall x, In x l1 <-> In x l2) -> l1 = l2.
Proof.
  revert l2. induction l1 as [|x r1 IH]; intros [|y r2] H1 H2 Hx.
  - reflexivity.
  - exfalso. apply (proj2 (Hx y)). left. reflexivity.
  - exfalso. apply (proj1 (Hx x)). left. reflexivity.
  - apply StronglySorted_inv in H1 as [R1 F1]. apply StronglySorted_inv in H2 as [R2 F2].
    rewrite List.Forall_forall in F1, F2.
    assert (x = y) as <-.
    { destruct (proj1 (Hx x) (or_introl eq_refl)) as [->|Hx2]; [reflexivity|].
      destruct (proj2 (Hx y) (or_introl eq_refl)) as [->|Hy1]; [reflexivity|].
      specialize (F1 y Hy1). specialize (F2 x Hx2). lia. }
    f_equal. apply IH; [exact R1|exact R2|]. intros z. split; intros Hz.
    + destruct (proj1 (Hx z) (or_intror Hz)) as [<-|H]; [|exact H].
      specialize (F1 x Hz). lia.
    + destruct (proj2 (Hx z) (or_intror Hz)) as [<-|H]; [|exact H].
      specialize (F2 x Hz). lia.
Qed.

Lemma dates_NoDup_gen (uid : Z) (P : row -> bool) (l : list row) :
  List.NoDup (map fst l) ->
  List.NoDup (map (fun kv : row => kv.1.2)
           (List.filter P (List.filter (fun kv : row => kv.1.1 =? uid) l))).
Proof.
  induction l as [|[[u d] r] l IH]; intros Hnd; cbn; [constructor|].
  apply NoDup_cons_iff in Hnd as [Hk Hl].
  destruct (u =? uid) eqn:Eu; cbn; [|exact (IH Hl)].
  destruct (P ((u, d), r)); cbn; [|exact (IH Hl)].
  constructor; [|exact (IH Hl)].
  intros Hin. apply in_map_iff in Hin as [[[u' d'] r'] [Hd Hin]]. cbn in Hd. subst d'.
  apply filter_In in Hin as [Hin _]. apply filter_In in Hin as [Hin Eu']. cbn in Eu'.
  apply Z.eqb_eq in Eu, Eu'. subst.
  apply Hk. apply in_map_iff. exists ((uid, d), r'). split; [reflexivity|exact Hin].
Qed.

Lemma map_to_list_fst_NoDup (logs : gmap (Z * Z) daily_log) :
  List.NoDup (map fst (map_to_list logs)).
Proof.
  pose proof (proj1 (NoDup_ListNoDup _) (NoDup_fst_map_to_list logs)) as H.
  assert (E : forall l : list row, l.*1 = map fst l).
  { induction l as [|kv l IH]; [reflexivity|]. cbn [map]. rewrite <- IH. reflexivity. }
  rewrite <- E. exact H.
Qed.

Lemma completion_dates_In (uid : Z) (logs : gmap (Z * Z) daily_log) (d : Z) :
  In d (completion_dates uid logs) <-> exists r, logs !! (uid, d) = Some r /\ 0 < points r.
Proof.
  unfold completion_dates, user_rows, positive. split.
  - intros H. apply (Permutation_in _ (sort_desc_perm _)) in H.
    apply in_map_iff in H as [[[u d'] r] [Hd H]]. cbn in Hd. subst d'.
    apply filter_In in H as [H Hp]. apply filter_In in H as [H Hu]. cbn in Hp, Hu.
    apply Z.eqb_eq in Hu. apply Z.ltb_lt in Hp. subst u.
    exists r. split; [|exact Hp]. apply elem_of_map_to_list. apply list_elem_of_In. exact H.
  - intros [r [Hr Hp]]. apply (Permutation_in _ (Permutation_sym (sort_desc_perm _))).
    apply in_map_iff. exists ((uid, d), r). split; [reflexivity|].
    apply filter_In. split; [|cbn; apply Z.ltb_lt; exact Hp].
    apply filter_In. split; [|cbn; apply Z.eqb_refl].
    apply list_elem_of_In. apply elem_of_map_to_list. exact Hr.
Qed.

Lemma completion_dates_sorted (uid : Z) (logs : gmap (Z * Z) daily_log) :
  StronglySorted Z.gt (completion_dates uid logs).
Proof.
  apply sort_desc_sorted. apply dates_NoDup_gen. apply map_to_list_fst_NoDup.
Qed.

Lemma completion_dates_NoDup (uid : Z) (logs : gmap (Z * Z) daily_log) :
  List.NoDup (completion_dates uid logs).
Proof.
  apply (Permutation_NoDup (Permutation_sym (sort_desc_perm _))).
  apply dates_NoDup_gen. apply map_to_list_fst_NoDup.
Qed.

(** The dates depend only on which days of the user have positive
    points. *)
Lemma completion_dates_ext (uid : Z) (m1 m2 : gmap (Z * Z) daily_log) :
  (forall d, (exists r, m1 !! (uid, d) = Some r /\ 0 < points r) <->
             (exists r, m2 !! (uid, d) = Some r /\ 0 < points r)) ->
  completion_dates uid m1 = completion_dates uid m2.
Proof.
  intros H. apply sorted_gt_unique; try apply completion_dates_sorted.
  intros x. rewrite !completion_dates_In. apply H.
Qed.

Lemma streak_loop_spec (l : list Z) (e acc : Z) :
  StronglySorted Z.gt l ->
  exists k, 0 <= k /\ streak_loop l e acc = acc + k /\
    (forall i, 0 <= i < k -> In (e - i) l) /\ ~ In (e - k) l.
Proof.
  revert e acc. induction l as [|d r IH]; intros e acc Hs.
  - exists 0. cbn. split; [lia|]. split; [lia|]. split; [intros i Hi; lia|intros []].
  - apply StronglySorted_inv in Hs as [Hr Hd]. rewrite List.Forall_forall in Hd.
    cbn [streak_loop].
    destruct (d =? e) eqn:E1.
    + apply Z.eqb_eq in E1. subst d.
      destruct (IH (e - 1) (acc + 1) Hr) as [k [Hk [Hv [Hin Hout]]]].
      exists (k + 1). split; [lia|]. split; [rewrite Hv; lia|]. split.
      * intros i Hi. destruct (Z.eq_dec i 0) as [->|Hne]; [left; lia|].
        right. replace (e - i) with (e - 1 - (i - 1)) by lia. apply Hin. lia.
      * intros [H|H]; [lia|]. apply Hout. replace (e - 1 - k) with (e - (k + 1)) by lia. exact H.
    + apply Z.eqb_neq in E1. destruct (d <? e) eqn:E2.
      * apply Z.ltb_lt in E2. exists 0. split; [lia|]. split; [lia|].
        split; [intros i Hi; lia|].
        intros [H|H]; [lia|]. specialize (Hd _ H). lia.
      * apply Z.ltb_ge in E2.
        destruct (IH e acc Hr) as [k [Hk [Hv [Hin Hout]]]].
        exists k. split; [exact Hk|]. split; [exact Hv|]. split.
        -- intros i Hi. right. apply Hin. exact Hi.
        -- intros [H|H]; [lia|exact (Hout H)].
Qed.

Lemma calculate_streak_days (uid : Z) (logs : gmap (Z * Z) daily_log) (today : Z) :
  let s := calculate_streak uid logs today in
  0 <= s /\
  (forall i, 0 <= i < s -> exists r, logs !! (uid, today - i) = Some r /\ 0 < points r) /\
  ~ (exists r, logs !! (uid, today - s) = Some r /\ 0 < points r).
Proof.
  cbv zeta. unfold calculate_streak.
  destruct (completion_dates uid logs) as [|d r] eqn:E.
  - split; [lia|]. split; [intros i Hi; lia|].
    rewrite <- completion_dates_In, E. intros [].
  - pose proof (completion_dates_sorted uid logs) as Hs. rewrite E in Hs.
    destruct (streak_loop_spec (d :: r) today 0 Hs) as [k [Hk [Hv [Hin Hout]]]].
    rewrite Hv. split; [lia|]. split.
    + intros i Hi. apply completion_dates_In. rewrite E. apply Hin. lia.
    + rewrite <- completion_dates_In, E. replace (today - (0 + k)) with (today - k) by lia.
      exact Hout.
Qed.

Lemma max_streak_loop_ge_best (l : list Z) (prev : option Z) (c best : Z) :
  best <= max_streak_loop l prev c best.
Proof.
  revert prev c best. induction l as [|d r IH]; intros prev c best; cbn; [lia|].
  etransitivity; [|apply IH]. lia.
Qed.

Lemma max_streak_loop_carry (l : list Z) (p c best j : Z) :
  StronglySorted Z.lt l -> (forall y, In y l -> p < y) -> 1 <= j ->
  (forall i, 1 <= i <= j -> In (p + i) l) ->
  c + j <= max_streak_loop l (Some p) c best.
Proof.
  revert p c best j. induction l as [|d r IH]; intros p c best j Hs Hgt Hj Hin.
  - destruct (Hin 1 ltac:(lia)).
  - apply StronglySorted_inv in Hs as [Hr Hd]. rewrite List.Forall_forall in Hd.
    assert (d = p + 1) as ->.
    { destruct (Hin 1 ltac:(lia)) as [H|H]; [lia|].
      specialize (Hd _ H). specialize (Hgt d (or_introl eq_refl)). lia. }
    cbn [max_streak_loop].
    replace (p + 1 - p =? 1) with true by (symmetry; apply Z.eqb_eq; lia).
    destruct (Z.eq_dec j 1) as [->|Hj1].
    + etransitivity; [|apply max_streak_loop_ge_best]. lia.
    + etransitivity; [|apply (IH (p + 1) (c + 1) _ (j - 1))]; [lia|exact Hr| |lia|].
      * intros y Hy. exact (Hd y Hy).
      * intros i Hi. destruct (Hin (i + 1) ltac:(lia)) as [H|H]; [lia|].
        replace (p + 1 + i) with (p + (i + 1)) by lia. exact H.
Qed.

Lemma max_streak_loop_block (l : list Z) (prev : option Z) (c best x k : Z) :
  StronglySorted Z.lt l -> 0 <= c -> 1 <= k ->
  (forall i, 0 <= i < k -> In (x + i) l) ->
  k <= max_streak_loop l prev c best.
Proof.
  revert prev c best. induction l as [|d r IH]; intros prev c best Hs Hc Hk Hin.
  - destruct (Hin 0 ltac:(lia)).
  - apply StronglySorted_inv in Hs as [Hr Hd]. rewrite List.Forall_forall in Hd.
    cbn [max_streak_loop].
    set (c' := match prev with Some p => if d - p =? 1 then c + 1 else 1 | None => 1 end).
    assert (Hc' : 1 <= c') by (unfold c'; destruct prev as [p|]; [destruct (d - p =? 1)|]; lia).
    destruct (Z.eq_dec d x) as [<-|Hdx].
    + destruct (Z.eq_dec k 1) as [->|Hk1].
      * etransitivity; [|apply max_streak_loop_ge_best]. lia.
      * etransitivity; [|apply (max_streak_loop_carry r d c' _ (k - 1))];
          [lia|exact Hr|exact Hd|lia|].
        intros i Hi. destruct (Hin i ltac:(lia)) as [H|H]; [lia|exact H].
    + apply IH; [exact Hr|lia|exact Hk|].
      intros i Hi. destruct (Hin i Hi) as [H|H]; [|exact H].
      exfalso. destruct (Hin 0 ltac:(lia)) as [H0|H0]; [lia|]. specialize (Hd _ H0). lia.
Qed.

Lemma total_points_perm_gen (uid : Z) (l1 l2 : list row) :
  Permutation l1 l2 ->
  fold_right (fun kv acc => points kv.2 + acc) 0 (List.filter (fun kv : row => kv.1.1 =? uid) l1) =
  fold_right (fun kv acc => points kv.2 + acc) 0 (List.filter (fun kv : row => kv.1.1 =? uid) l2).
Proof.
  induction 1 as [|x l1 l2 _ IH|x y l|l1 l2 l3 _ IH1 _ IH2]; cbn [List.filter].
  - reflexivity.
  - destruct (x.1.1 =? uid); cbn [fold_right]; rewrite IH; reflexivity.
  - destruct (x.1.1 =? uid), (y.1.1 =? uid); cbn [fold_right]; lia.
  - congruence.
Qed.

Lemma total_points_insert (uid : Z) (m : gmap (Z * Z) daily_log) (k : Z * Z) (old new : daily_log) :
  m !! k = Some old ->
  total_points uid (<[k := new]> m) =
    total_points uid m + (if k.1 =? uid then points new - points old else 0).
Proof.
  intros Hk. unfold total_points, user_rows.
  assert (Hd : delete k m !! k = None) by apply lookup_delete_eq.
  pose proof (map_to_list_insert (delete k m) k old Hd) as P1.
  rewrite insert_delete_id in P1 by exact Hk.
  pose proof (map_to_list_insert (delete k m) k new Hd) as P2.
  rewrite insert_delete_eq in P2.
  rewrite (total_points_perm_gen uid _ _ P1), (total_points_perm_gen uid _ _ P2).
  cbn [List.filter fst]. destruct (k.1 =? uid); cbn [fold_right snd]; lia.
Qed.

(** [completion_dates] lists every day on which the user has a log with
    positive points, each once, newest first; their number is what
    [completed_days] counts. *)
Theorem completion_dates_newest_first (uid : Z) (logs : gmap (Z * Z) daily_log) :
  StronglySorted Z.gt (completion_dates uid logs) /\
  (forall d, In d (completion_dates uid logs) <->
             exists r, logs !! (uid, d) = Some r /\ 0 < points r) /\
  Z.of_nat (length (completion_dates uid logs)) = completed_days uid logs.
Proof.
  split; [apply completion_dates_sorted|]. split; [apply completion_dates_In|].
  unfold completion_dates, completed_days.
  rewrite (Permutation_length (sort_desc_perm _)), length_map. reflexivity.
Qed.

(** [calculate_streak] is the number [s] of consecutive days ending today
    that each have a log with positive points: today, yesterday, ... down
    to [today - s + 1] all have one, and [today - s] has none. In
    particular the streak is 0 while today has no points, however long the
    run up to yesterday. *)
Theorem calculate_streak_counts_back_from_today (uid : Z) (logs : gmap (Z * Z) daily_log)
    (today : Z) :
  let s := calculate_streak uid logs today in
  0 <= s /\
  (forall i, 0 <= i < s -> exists r, logs !! (uid, today - i) = Some r /\ 0 < points r) /\
  ~ (exists r, logs !! (uid, today - s) = Some r /\ 0 < points r).
Proof. exact (calculate_streak_days uid logs today). Qed.

(** The record [calculate_max_streak] shown by [show_stats] is never below
    the current streak [calculate_streak]. *)
Theorem streak_never_exceeds_max_streak (uid : Z) (logs : gmap (Z * Z) daily_log) (today : Z) :
  calculate_streak uid logs today <= calculate_max_streak uid logs.
Proof.
  pose proof (calculate_streak_days uid logs today) as [Hs [Hin _]].
  set (s := calculate_streak uid logs today) in *.
  unfold calculate_max_streak.
  destruct (Z.eq_dec s 0) as [E|E].
  - rewrite E. apply max_streak_loop_ge_best.
  - apply (max_streak_loop_block _ None 0 0 (today - s + 1) s).
    + apply sort_asc_sorted. apply completion_dates_NoDup.
    + lia.
    + lia.
    + intros i Hi. apply (Permutation_in _ (Permutation_sym (sort_asc_perm _))).
      apply completion_dates_In. replace (today - s + 1 + i) with (today - (s - 1 - i)) by lia.
      apply Hin. lia.
Qed.

(** [add_points user_id date delta] on an existing day adds [delta] to
    that day's points, keeping its exercises and tag, so the user's
    [total_points] grows by exactly [delta] and every other user's total
    stays. On a day with no log it changes nothing: no row is created. *)
Theorem add_points_moves_total (user_id date delta : Z) (w : world) :
  let w' := snd (add_points user_id date delta w) in
  fst (add_points user_id date delta w) = Ok tt /\
  (forall u, total_points u (daily_logs (db w')) =
     total_points u (daily_logs (db w)) +
     match daily_logs (db w) !! (user_id, date) with
     | Some _ => if u =? user_id then delta else 0
     | None => 0
     end) /\
  match daily_logs (db w) !! (user_id, date) with
  | Some old =>
      fst (load_daily_log user_id date w') =
        Ok (Some {| exercises_done := exercises_done old; difficulty_rate := difficulty_rate old;
                    points := points old + delta |})
  | None => w' = w
  end.
Proof.
  cbv zeta. unfold add_points.
  destruct (daily_logs (db w) !! (user_id, date)) as [old|] eqn:E; cbn [fst snd].
  - split; [reflexivity|]. split.
    + intros u. cbn [db set_db with_logs daily_logs].
      rewrite (total_points_insert u _ _ old _ E). cbn [fst points].
      rewrite (Z.eqb_sym user_id u). destruct (u =? user_id); lia.
    + unfold load_daily_log. cbn [fst db set_db with_logs daily_logs].
      rewrite lookup_insert_eq. reflexivity.
  - split; [reflexivity|]. split; [intros u; lia|reflexivity].
Qed.

Lemma total_points_insert_fresh (uid : Z) (m : gmap (Z * Z) daily_log) (k : Z * Z) (new : daily_log) :
  m !! k = None ->
  total_points uid (<[k := new]> m) = total_points uid m + (if k.1 =? uid then points new else 0).
Proof.
  intros Hk. unfold total_points, user_rows.
  rewrite (total_points_perm_gen uid _ _ (map_to_list_insert m k new Hk)).
  cbn [List.filter fst]. destruct (k.1 =? uid); cbn [fold_right snd]; lia.
Qed.

(** After [update_daily_log user_id date ex difficulty pts],
    [load_daily_log] reads back the given exercises, the given tag or the
    stored one when none is given, and [pts] or 0: omitted points reset
    the day to 0 even on an existing row. So the user's [total_points]
    changes by the new points minus the day's old points. No other row,
    no user and no message changes. *)
Theorem update_daily_log_then_load (user_id date : Z) (ex : sessions)
    (difficulty : option string) (pts : option Z) (w : world) :
  let w' := snd (update_daily_log user_id date ex difficulty pts w) in
  let old := daily_logs (db w) !! (user_id, date) in
  fst (update_daily_log user_id date ex difficulty pts w) = Ok tt /\
  load_daily_log user_id date w' =
    (Ok (Some {| exercises_done := ex;
                 difficulty_rate := match difficulty with
                                    | Some r => Some r
                                    | None => match old with
                                              | Some o => difficulty_rate o
                                              | None => None
                                              end
                                    end;
                 points := coalesce pts 0 |}), w') /\
  (forall u, total_points u (daily_logs (db w')) =
     total_points u (daily_logs (db w)) +
     (if u =? user_id
      then coalesce pts 0 - match old with Some o => points o | None => 0 end
      else 0)) /\
  (forall k, k <> (user_id, date) -> daily_logs (db w') !! k = daily_logs (db w) !! k) /\
  users (db w') = users (db w) /\ outbox w' = outbox w.
Proof.
  cbv zeta. unfold update_daily_log.
  destruct (daily_logs (db w) !! (user_id, date)) as [o|] eqn:E; cbn [fst snd];
    (split; [reflexivity|]); unfold load_daily_log; cbn [db set_db with_logs daily_logs users outbox];
    rewrite lookup_insert_eq.
  - split; [reflexivity|]. split.
    + intros u. rewrite (total_points_insert u _ _ o _ E). cbn [fst points coalesce].
      rewrite (Z.eqb_sym user_id u). destruct (u =? user_id); lia.
    + split; [|split; reflexivity]. intros k Hk. apply lookup_insert_ne. congruence.
  - split; [destruct difficulty; reflexivity|]. split.
    + intros u. rewrite (total_points_insert_fresh u _ _ _ E). cbn [fst points].
      rewrite (Z.eqb_sym user_id u). destruct (u =? user_id); lia.
    + split; [|split; reflexivity]. intros k Hk. apply lookup_insert_ne. congruence.
Qed.

(** [close_previous_day_if_pending] never changes anyone's statistics:
    [total_points], [completion_dates], [calculate_streak] and
    [calculate_max_streak] read the same before and after it, since it
    only rewrites a day that has 0 points with 0 points. *)
Theorem close_previous_day_keeps_stats (user_id today : Z) (w : world) :
  let logs := daily_logs (db w) in
  let logs' := daily_logs (db (snd (close_previous_day_if_pending user_id today w))) in
  forall u t,
    total_points u logs' = total_points u logs /\
    completion_dates u logs' = completion_dates u logs /\
    calculate_streak u logs' t = calculate_streak u logs t /\
    calculate_max_streak u logs' = calculate_max_streak u logs.
Proof.
  cbv zeta. intros u t.
  assert (Hd : completion_dates u (daily_logs (db (snd (close_previous_day_if_pending user_id today w))))
               = completion_dates u (daily_logs (db w)) /\
               total_points u (daily_logs (db (snd (close_previous_day_if_pending user_id today w))))
               = total_points u (daily_logs (db w))).
  { unfold close_previous_day_if_pending, bind, load_daily_log, ret. cbn [fst snd].
    destruct (daily_logs (db w) !! (user_id, today - 1)) as [prev|] eqn:E;
      [|split; reflexivity].
    destruct (points prev =? 0) eqn:P; cbn [negb]; [|split; reflexivity].
    apply Z.eqb_eq in P.
    erewrite (update_daily_log_existing _ _ _ _ _ _ prev); [|exact E].
    cbn [snd db set_db with_logs daily_logs]. split.
    - apply completion_dates_ext. intros d.
      destruct (decide ((u, d) = (user_id, today - 1))) as [Hk|Hk].
      + rewrite Hk, lookup_insert_eq, E. cbn [points coalesce]. split.
        * intros [r [Hr Hp]]. injection Hr as <-. cbn in Hp. lia.
        * intros [r [Hr Hp]]. injection Hr as <-. lia.
      + rewrite lookup_insert_ne by congruence. reflexivity.
    - rewrite (total_points_insert u _ _ prev _ E). cbn [points coalesce].
      destruct (_ =? u); lia. }
  destruct Hd as [Hd Ht]. split; [exact Ht|]. split; [exact Hd|].
  unfold calculate_streak, calculate_max_streak. rewrite Hd. split; reflexivity.
Qed.

(** ** Sessions, callbacks and users *)

Lemma dict_get_set {V} (d : list (string * V)) (k k' : string) (v def : V) :
  dict_get (dict_set d k v) k' def = if String.eqb k k' then v else dict_get d k' def.
Proof.
  induction d as [|[k0 v0] r IH]; cbn.
  - destruct (String.eqb k k'); reflexivity.
  - destruct (String.eqb k0 k) eqn:E0; cbn.
    + apply String.eqb_eq in E0. subst k0. destruct (String.eqb k k'); reflexivity.
    + destruct (String.eqb k0 k') eqn:E1; [|exact IH].
      apply String.eqb_eq in E1. subst k0.
      destruct (String.eqb k k') eqn:E2; [|reflexivity].
      apply String.eqb_eq in E2. subst k. rewrite String.eqb_refl in E0. discriminate E0.
Qed.

(** Reading a session back from a log whose [exercises_done] is what
    [_store_log_exercises log session exercises] built gives [exercises];
    every other session reads as it did in [log]. A legacy flat list
    becomes the ["main"] session, so it still reads back as before. *)
Theorem store_log_exercises_round_trip (log : option daily_log) (session s : string)
    (exs : list exercise) (tag : option string) (pts : Z) :
  _log_exercises (Some {| exercises_done := _store_log_exercises log session exs;
                          difficulty_rate := tag; points := pts |}) s =
    if String.eqb session s then exs else _log_exercises log s.
Proof.
  unfold _store_log_exercises, _log_exercises. cbn [exercises_done].
  rewrite dict_get_set. destruct (String.eqb session s); [reflexivity|].
  destruct log as [l|]; [|reflexivity].
  destruct (exercises_done l) as [xs|d]; [|reflexivity].
  cbn [dict_get]. rewrite (String.eqb_sym "main" s). reflexivity.
Qed.

Lemma py_setitem_out_of_range {A} (l : list A) (i : Z) (v : A) :
  i < - Z.of_nat (length l) \/ Z.of_nat (length l) <= i -> py_setitem l i v = Raise IndexError.
Proof.
  intros Hi. unfold py_setitem.
  destruct (i <? 0) eqn:E; [apply Z.ltb_lt in E|apply Z.ltb_ge in E];
    (replace (_ && _) with false; [reflexivity|]); symmetry;
    apply andb_false_iff;
    first [ left; apply Z.leb_gt; lia | right; apply Z.ltb_ge; lia ].
Qed.

(** [handle_exercise_callback] leaves the database as it was when the chat
    has no profile, when there is no log for today, when the additional
    session is cancelled (index -1), and when the index is out of range
    for the stored session (a stale keyboard). In the first three cases it
    returns normally; in the last one it raises [IndexError] from the
    list assignment, before any write. *)
Theorem handle_exercise_callback_read_only (today chat : Z) (cb : ExerciseCallback) (w : world) :
  let user := find (fun u => chat_id u =? chat) (users (db w)) in
  let n := fun l => Z.of_nat (length (_log_exercises (Some l) (cb_session cb))) in
  let quiet :=
    user = None \/
    (exists u, user = Some u /\ daily_logs (db w) !! (id u, today) = None) \/
    (exists u l, user = Some u /\ daily_logs (db w) !! (id u, today) = Some l /\
       cb_index cb = -1 /\ cb_session cb = "additional") in
  let stale :=
    exists u l, user = Some u /\ daily_logs (db w) !! (id u, today) = Some l /\
      cb_index cb <> -1 /\ (cb_index cb < - n l \/ n l <= cb_index cb) in
  quiet \/ stale ->
  db (snd (handle_exercise_callback today chat cb w)) = db w /\
  (quiet -> fst (handle_exercise_callback today chat cb w) = Ok tt) /\
  (stale -> fst (handle_exercise_callback today chat cb w) = Raise IndexError).
Proof.
  intros user n quiet stale.
  assert (Hstale : stale -> handle_exercise_callback today chat cb w = (Raise IndexError, w)).
  { intros [u [l [H1 [H2 [H3 H4]]]]].
    unfold handle_exercise_callback, bind, get_user, load_daily_log, lift.
    cbn [fst snd]. unfold user in H1. rewrite H1. rewrite H2.
    replace (cb_index cb =? -1) with false by (symmetry; apply Z.eqb_neq; exact H3).
    rewrite py_setitem_out_of_range; [reflexivity|]. rewrite length_map. exact H4. }
  assert (Hquiet : quiet -> fst (handle_exercise_callback today chat cb w) = Ok tt /\
                            db (snd (handle_exercise_callback today chat cb w)) = db w).
  { unfold handle_exercise_callback, bind, get_user, load_daily_log, answer, lift.
    cbn [fst snd db].
    intros [H|[[u [H1 H2]]|[u [l [H1 [H2 [H3 H4]]]]]]]; unfold user in *.
    - rewrite H. split; reflexivity.
    - rewrite H1. cbn [db]. rewrite H2. split; reflexivity.
    - rewrite H1. cbn [db]. rewrite H2, H3, H4. split; reflexivity. }
  intros H. split; [|split].
  - destruct H as [H|H]; [apply Hquiet, H|rewrite Hstale by exact H; reflexivity].
  - intros H'. apply Hquiet, H'.
  - intros H'. rewrite Hstale by exact H'. reflexivity.
Qed.


Lemma update_where_chat_ids (chat : Z) (f : user_row -> user_row) (us : list user_row) :
  (forall u, chat_id (f u) = chat_id u) ->
  map chat_id (update_where_chat chat f us) = map chat_id us.
Proof.
  intros Hf. induction us as [|u r IH]; cbn; [reflexivity|].
  rewrite IH. destruct (chat_id u =? chat); [rewrite Hf|]; reflexivity.
Qed.

Lemma update_where_chat_length (chat : Z) (f : user_row -> user_row) (us : list user_row) :
  length (update_where_chat chat f us) = length us.
Proof. induction us as [|u r IH]; cbn; [reflexivity|]. rewrite IH. reflexivity. Qed.

Lemma update_where_chat_find (chat : Z) (f : user_row -> user_row) (us : list user_row) :
  (forall u, chat_id (f u) = chat_id u) ->
  find (fun u => chat_id u =? chat) (update_where_chat chat f us) =
    option_map f (find (fun u => chat_id u =? chat) us).
Proof.
  intros Hf. induction us as [|u r IH]; cbn; [reflexivity|].
  destruct (chat_id u =? chat) eqn:E; cbn; [rewrite Hf, E; reflexivity|rewrite E; exact IH].
Qed.

Lemma find_app_none {A} (p : A -> bool) (l1 l2 : list A) :
  find p l1 = None -> find p (l1 ++ l2) = find p l2.
Proof.
  induction l1 as [|x r IH]; cbn; [reflexivity|].
  destruct (p x); [discriminate|exact IH].
Qed.

Lemma existsb_find {A} (p : A -> bool) (l : list A) :
  existsb p l = match find p l with Some _ => true | None => false end.
Proof. induction l as [|x r IH]; cbn; [reflexivity|]. destruct (p x); [reflexivity|exact IH]. Qed.

Lemma upsert_user_users (chat : Z) (f : user_row -> user_row) (w : world) :
  fst (upsert_user chat f w) = Ok tt /\
  users (db (snd (upsert_user chat f w))) =
    update_where_chat chat f
      (if existsb (fun u => chat_id u =? chat) (users (db w)) then users (db w)
       else (users (db w) ++ [{| id := next_user_id (db w); chat_id := chat; nickname := None;
                                 weight := None; height := None; age := None |}])%list) /\
  daily_logs (db (snd (upsert_user chat f w))) = daily_logs (db w) /\
  outbox (snd (upsert_user chat f w)) = outbox w.
Proof. unfold upsert_user. destruct (existsb _ _); cbn; repeat split. Qed.

Lemma set_nickname_chat_id (n : option string) (u : user_row) :
  chat_id (set_nickname n u) = chat_id u.
Proof. reflexivity. Qed.

(** [upsert_user chat f], with an update [f] that does not touch
    [chat_id] (the handlers only set other columns), keeps the chat ids of
    the [users] table distinct. It adds one row exactly when the chat had
    none, and [get_user chat] then returns that chat's row (the existing
    one, or the new row with the next id and empty columns) with [f]
    applied. The daily logs do not change. *)
Theorem upsert_user_keeps_chats_unique (chat : Z) (f : user_row -> user_row) (w : world)
    (Hf : forall u, chat_id (f u) = chat_id u)
    (Hnd : List.NoDup (map chat_id (users (db w)))) :
  let us := users (db w) in
  let w' := snd (upsert_user chat f w) in
  fst (upsert_user chat f w) = Ok tt /\
  List.NoDup (map chat_id (users (db w'))) /\
  length (users (db w')) =
    (length us + if existsb (fun u => (chat_id u =? chat)%Z) us then 0 else 1)%nat /\
  fst (get_user chat w') =
    Ok (Some (f match find (fun u => chat_id u =? chat) us with
                | Some u => u
                | None => {| id := next_user_id (db w); chat_id := chat; nickname := None;
                             weight := None; height := None; age := None |}
                end)) /\
  daily_logs (db w') = daily_logs (db w).
Proof.
  cbv zeta. destruct (upsert_user_users chat f w) as [Hok [Hus [Hlogs _]]].
  split; [exact Hok|]. unfold get_user. cbn [fst]. rewrite Hus, Hlogs.
  rewrite update_where_chat_ids, update_where_chat_length, update_where_chat_find by exact Hf.
  rewrite existsb_find.
  destruct (find (fun u => chat_id u =? chat) (users (db w))) as [u|] eqn:F.
  - split; [exact Hnd|]. split; [lia|]. split; [rewrite F|]; reflexivity.
  - split; [|split; [rewrite length_app; cbn; lia|split; [|reflexivity]]].
    + rewrite map_app. cbn [map chat_id].
      apply List.NoDup_app; [exact Hnd|repeat constructor; intros []|].
      intros a Ha [<-|[]]. apply in_map_iff in Ha as [u [Hu Hin]].
      pose proof (find_none _ _ F u Hin) as Hx. cbn in Hx. rewrite Hu, Z.eqb_refl in Hx.
      discriminate Hx.
    + rewrite find_app_none by exact F. cbn. rewrite Z.eqb_refl. reflexivity.
Qed.

(** [ensure_profile] always returns a row, and it is the row of the
    message's chat, so the handlers' "create a profile first" branches are
    never taken. It never overwrites a stored nickname: when the chat's row
    has one, nothing changes. A row without a nickname gets the sender's
    name, and a new chat gets a new row named after the sender. *)
Theorem ensure_profile_keeps_nickname (m : Message) (w : world) :
  let chat := msg_chat m in
  let w' := snd (ensure_profile m w) in
  exists u, fst (ensure_profile m w) = Ok (Some u) /\ chat_id u = chat /\
    match find (fun u => chat_id u =? chat) (users (db w)) with
    | Some u0 =>
        match nickname u0 with
        | Some _ => u = u0 /\ w' = w
        | None => nickname u = msg_from_name m /\ length (users (db w')) = length (users (db w))
        end
    | None => nickname u = msg_from_name m /\ length (users (db w')) = S (length (users (db w)))
    end.
Proof.
  cbv zeta. unfold ensure_profile, bind, get_user, ret. cbn [fst snd].
  destruct (find (fun u => chat_id u =? msg_chat m) (users (db w))) as [u0|] eqn:F.
  - pose proof (find_some _ _ F) as [_ Hc]. apply Z.eqb_eq in Hc.
    destruct (nickname u0) as [n0|] eqn:N.
    + exists u0. split; [reflexivity|]. split; [exact Hc|]. split; reflexivity.
    + destruct (msg_from_name m) as [n|] eqn:M.
      * cbn [fst snd].
        destruct (upsert_user_users (msg_chat m) (set_nickname (Some n)) w) as [Hok [Hus _]].
        destruct (upsert_user (msg_chat m) (set_nickname (Some n)) w) as [r w1] eqn:U.
        cbn [fst snd] in Hok, Hus. subst r. cbn [fst snd]. rewrite Hus.
        rewrite update_where_chat_find by apply set_nickname_chat_id.
        rewrite existsb_find, F. rewrite F. cbn [option_map].
        eexists. split; [reflexivity|]. split; [exact Hc|].
        split; [reflexivity|].
        rewrite update_where_chat_length. reflexivity.
      * exists u0. split; [reflexivity|]. split; [exact Hc|]. split; [exact N|reflexivity].
  - destruct (upsert_user_users (msg_chat m) (set_nickname (msg_from_name m)) w) as [Hok [Hus _]].
    destruct (upsert_user (msg_chat m) (set_nickname (msg_from_name m)) w) as [r w1] eqn:U.
    cbn [fst snd] in Hok, Hus. subst r. rewrite Hus.
    rewrite update_where_chat_find by apply set_nickname_chat_id.
    rewrite existsb_find, F. rewrite find_app_none by exact F. cbn [find chat_id]. rewrite Z.eqb_refl.
    cbn [option_map]. eexists. split; [reflexivity|]. split; [reflexivity|].
    split; [reflexivity|]. cbn [snd]. rewrite Hus, update_where_chat_length, existsb_find, F, length_app. cbn. lia.
Qed.

(** [/start] alone never takes the [users] table past [MAX_USERS] rows. *)
Theorem start_respects_max_users (m : Message) (w : world) :
  Z.of_nat (length (users (db w))) <= MAX_USERS ->
  Z.of_nat (length (users (db (snd (start m w))))) <= MAX_USERS.
Proof.
  intros H. unfold start, bind, get_user, get_user_count, answer. cbn [fst snd db].
  destruct (find (fun u => chat_id u =? msg_chat m) (users (db w))); [exact H|].
  destruct (MAX_USERS <=? Z.of_nat (length (users (db w)))) eqn:E; [exact H|].
  apply Z.leb_gt in E.
  destruct (upsert_user_users (msg_chat m) (set_nickname (msg_from_name m)) w) as [Hok [Hus _]].
  destruct (upsert_user (msg_chat m) (set_nickname (msg_from_name m)) w) as [r w1] eqn:U.
  cbn [fst snd] in Hok, Hus. subst r. cbn [fst snd db]. rewrite Hus, update_where_chat_length.
  destruct (existsb _ _); [exact H|]. rewrite length_app. cbn [length]. lia.
Qed.

(** ** The scheduler's window and job store *)

Lemma window_of_bounds (st et now : Z) :
  0 <= st < DAY -> 0 <= et < DAY ->
  let w := window_of st et now in
  fst w < snd w <= fst w + DAY /\ now < snd w /\
  now / DAY <= fst w / DAY <= now / DAY + 1.
Proof.
  intros Hs He. cbv zeta. unfold window_of. cbv zeta. unfold DAY in *.
  set (d := now / 86400).
  pose proof (Z.div_mod now 86400 ltac:(lia)) as Hn. pose proof (Z.mod_pos_bound now 86400 ltac:(lia)).
  fold d in Hn.
  assert (key : forall D x, 0 <= x < 86400 -> (D * 86400 + x) / 86400 = D).
  { intros D x Hx. rewrite Z.div_add_l by lia. rewrite (Z.div_small x 86400) by lia. lia. }
  destruct (d * 86400 + et <=? d * 86400 + st) eqn:E1;
    destruct (_ <=? now) eqn:E2; cbn [fst snd];
    repeat match goal with
           | E : (_ <=? _) = true |- _ => apply Z.leb_le in E
           | E : (_ <=? _) = false |- _ => apply Z.leb_gt in E
           end;
    [ replace (d * 86400 + st + 86400) with ((d + 1) * 86400 + st) by lia
    | idtac
    | replace (d * 86400 + st + 86400) with ((d + 1) * 86400 + st) by lia
    | idtac ];
    rewrite key by lia; lia.
Qed.

(** When [_range_job]'s window computation succeeds at the clock reading
    [now], the window [(S, E)] is non-empty and at most a day long, ends
    after [now], and starts on [now]'s UTC date or the next one. So the
    [span_seconds < 0] case never happens, and an overnight window that
    began the day before (22:00-02:00 seen at 01:00) is skipped for the
    next one. *)
Theorem range_window_bounds (s e : pyval) (now S E : Z) :
  range_window s e now = Ok (S, E) ->
  S < E <= S + DAY /\ now < E /\ now / DAY <= S / DAY <= now / DAY + 1.
Proof.
  intros H. pose proof (range_window_shape _ _ _ _ H) as [st [et [Hst [Het Hw]]]].
  rewrite Hw in H. injection H as HW.
  pose proof (window_of_bounds st et now Hst Het) as B. cbv zeta in B. rewrite HW in B.
  exact B.
Qed.

Lemma replace_or_append_ids_in (j : job) (l : list job) (y : Z) :
  In y (map job_id (replace_or_append j l)) -> y = job_id j \/ In y (map job_id l).
Proof.
  induction l as [|x r IH]; cbn; [intros [H|[]]; left; congruence|].
  destruct (job_id x =? job_id j) eqn:E; cbn.
  - apply Z.eqb_eq in E. intros [H|H]; [left; congruence|right; right; exact H].
  - intros [H|H]; [right; left; exact H|]. destruct (IH H) as [H'|H']; [left|right; right]; assumption.
Qed.

Lemma replace_or_append_NoDup (j : job) (l : list job) :
  List.NoDup (map job_id l) -> List.NoDup (map job_id (replace_or_append j l)).
Proof.
  induction l as [|x r IH]; cbn; intros Hnd; [repeat constructor; intros []|].
  apply NoDup_cons_iff in Hnd as [Hx Hr].
  destruct (job_id x =? job_id j) eqn:E; cbn.
  - apply Z.eqb_eq in E. rewrite <- E. constructor; assumption.
  - apply Z.eqb_neq in E. constructor; [|exact (IH Hr)].
    intros H. destruct (replace_or_append_ids_in _ _ _ H); [congruence|contradiction].
Qed.

Lemma filter_jobs_NoDup (p : job -> bool) (l : list job) :
  List.NoDup (map job_id l) -> List.NoDup (map job_id (List.filter p l)).
Proof.
  induction l as [|x r IH]; cbn; intros Hnd; [constructor|].
  apply NoDup_cons_iff in Hnd as [Hx Hr].
  destruct (p x); cbn; [|exact (IH Hr)].
  constructor; [|exact (IH Hr)].
  intros H. apply in_map_iff in H as [y [Hy Hin]]. apply filter_In in Hin as [Hin _].
  apply Hx. apply in_map_iff. exists y. split; assumption.
Qed.

Lemma add_job_NoDup (func : wrapped) (trig : trigger) (id : Z) (st : WorkoutScheduler) :
  List.NoDup (map job_id (jobs st)) ->
  List.NoDup (map job_id (jobs (snd (add_job func trig id st)))).
Proof. intros H. exact (replace_or_append_NoDup _ _ H). Qed.

Lemma remove_job_jobs (id : Z) (st : WorkoutScheduler) :
  jobs (snd (remove_job id st)) = List.filter (fun j => negb (job_id j =? id)) (jobs st).
Proof.
  unfold remove_job. cbn [snd jobs].
  induction (jobs st) as [|x r IH]; [reflexivity|].
  cbn [List.filter]. rewrite <- IH.
  destruct (negb (job_id x =? id)) eqn:E; cbn; rewrite E; reflexivity.
Qed.

Lemma remove_job_NoDup (id : Z) (st : WorkoutScheduler) :
  List.NoDup (map job_id (jobs st)) ->
  List.NoDup (map job_id (jobs (snd (remove_job id st)))).
Proof. intros H. rewrite remove_job_jobs. exact (filter_jobs_NoDup _ _ H). Qed.

Lemma range_job_NoDup (chat : Z) (s e : pyval) (now : Z) (randint : Z -> Z -> Z)
    (st : WorkoutScheduler) :
  List.NoDup (map job_id (jobs st)) ->
  List.NoDup (map job_id (jobs (snd (_range_job chat s e now randint st)))).
Proof.
  intros H. unfold _range_job, bind, lift, raise.
  destruct (range_window s e now) as [w|]; [|exact H].
  destruct (snd w - fst w <? 0); [exact H|]. apply add_job_NoDup. exact H.
Qed.

Lemma run_wrapped_NoDup (f : wrapped) (callback : result unit) (now : Z)
    (randint : Z -> Z -> Z) (st : WorkoutScheduler) :
  List.NoDup (map job_id (jobs st)) ->
  List.NoDup (map job_id (jobs (snd (run_wrapped f callback now randint st)))).
Proof.
  intros H. unfold run_wrapped, bind, lift, ret.
  destruct callback as [[]|]; [|exact H].
  destruct (w_mode f), (w_start f), (w_end f);
    repeat match goal with
           | |- context [if ?b then _ else _] => destruct b
           | |- context [match ?a with _ => _ end] => destruct a
           end;
    first [exact H | apply range_job_NoDup; exact H].
Qed.

(** Every way the bot arms or runs a notification job keeps at most one
    job per chat in the job store: [_range_job], [schedule_range],
    [schedule_fixed] (all with [replace_existing=True]), and a job firing
    and re-arming itself. *)
Theorem scheduler_one_job_per_chat (st : WorkoutScheduler)
    (Hnd : List.NoDup (map job_id (jobs st))) :
  (forall chat s e now randint,
     List.NoDup (map job_id (jobs (snd (_range_job chat s e now randint st))))) /\
  (forall chat sl el tz now randint,
     List.NoDup (map job_id (jobs (snd (schedule_range chat sl el tz now randint st))))) /\
  (forall chat lt tz now,
     List.NoDup (map job_id (jobs (snd (schedule_fixed chat lt tz now st))))) /\
  (forall j callback now randint,
     List.NoDup (map job_id (jobs (snd (fire j callback now randint st))))).
Proof.
  split; [intros; apply range_job_NoDup; exact Hnd|].
  split.
  { intros. unfold schedule_range, bind, lift.
    destruct (convert_range_to_utc sl el tz now); [apply range_job_NoDup|]; exact Hnd. }
  split.
  { intros. unfold schedule_fixed, bind, lift. cbn [py_split].
    destruct (convert_local_time_to_utc lt tz now); exact Hnd. }
  intros. unfold fire, bind, ret.
  destruct (job_trigger j).
  - apply run_wrapped_NoDup. exact Hnd.
  - destruct (remove_job (job_id j) st) as [r st1] eqn:R.
    pose proof (remove_job_NoDup (job_id j) st Hnd) as H1. rewrite R in H1. cbn [snd] in H1.
    unfold remove_job in R. injection R as <- <-.
    apply run_wrapped_NoDup. exact H1.
Qed.

(** ** The exercise keyboard *)

Lemma exercise_buttons_spec (exs : list exercise) (completed : list bool) (session : string) :
  forall idx : nat,
    ((idx + length exs <= length completed)%nat ->
     exists bs, exercise_buttons exs completed session idx = Ok bs /\
       length bs = length exs /\
       forall (i : nat) (e : exercise), nth_error exs i = Some e ->
         exists c, nth_error completed (idx + i) = Some c /\
           nth_error bs i =
             Some {| btn_text := (if c then "✅" else "[ ]") ++ " " ++ ex_name e;
                     btn_data := {| cb_session := session; cb_index := Z.of_nat (idx + i);
                                    cb_completed := negb c |} |}) /\
    ((idx <= length completed < idx + length exs)%nat ->
     exercise_buttons exs completed session idx = Raise IndexError).
Proof.
  induction exs as [|e rest IH]; intros idx; cbn [exercise_buttons length].
  - split.
    + intros _. exists []. split; [reflexivity|]. split; [reflexivity|].
      intros [|i] e H; discriminate.
    + intros H. lia.
  - destruct (IH (S idx)) as [IHok IHerr].
    destruct (nth_error completed idx) as [c|] eqn:N.
    + split.
      * intros H. destruct IHok as [bs [E [L P]]]; [lia|].
        rewrite E. cbn [rbind]. eexists. split; [reflexivity|]. split; [cbn; lia|].
        intros [|i] e' He; cbn in He.
        -- injection He as <-. exists c. rewrite Nat.add_0_r. split; [exact N|reflexivity].
        -- destruct (P i e' He) as [c' [Nc Bs]]. exists c'.
           replace (idx + S i)%nat with (S idx + i)%nat by lia. split; [exact Nc|exact Bs].
      * intros H. assert (idx < length completed)%nat by (apply nth_error_Some; congruence).
        rewrite IHerr by lia. reflexivity.
    + split.
      * intros H. exfalso. apply nth_error_None in N. lia.
      * intros _. reflexivity.
Qed.

(** [exercises_keyboard] raises [IndexError] when [completed] is shorter
    than [exercises]. Otherwise it returns one row per exercise followed by
    the skip row: row [i] holds the button labelled with the exercise's
    status and name whose callback carries the session, the index [i] and
    the negated flag [completed[i]], and the last row holds the skip button
    with index [-1]. *)
Theorem exercises_keyboard_layout (exs : list exercise) (completed : list bool) (session : string) :
  ((length completed < length exs)%nat ->
   exercises_keyboard exs completed session = Raise IndexError) /\
  ((length exs <= length completed)%nat ->
   exists rows, exercises_keyboard exs completed session = Ok rows /\
     length rows = S (length exs) /\
     nth_error rows (length exs) = Some [skip_button session] /\
     forall (i : nat) (e : exercise), nth_error exs i = Some e ->
       exists c, nth_error completed i = Some c /\
         nth_error rows i =
           Some [{| btn_text := (if c then "✅" else "[ ]") ++ " " ++ ex_name e;
                    btn_data := {| cb_session := session; cb_index := Z.of_nat i;
                                   cb_completed := negb c |} |}]).
Proof.
  destruct (exercise_buttons_spec exs completed session 0) as [Hok Herr].
  unfold exercises_keyboard. split.
  - intros H. rewrite Herr by (cbn; lia). reflexivity.
  - intros H. destruct Hok as [bs [E [L P]]]; [cbn; lia|].
    rewrite E. cbn [rbind]. eexists. split; [reflexivity|].
    split; [rewrite length_map, length_app, L; cbn; lia|].
    split.
    + rewrite nth_error_map, nth_error_app2 by lia. rewrite L, Nat.sub_diag. reflexivity.
    + intros i e He. destruct (P i e He) as [c [Nc Bs]]. exists c. split; [exact Nc|].
      rewrite nth_error_map, nth_error_app1.
      * rewrite Bs. reflexivity.
      * rewrite L. apply nth_error_Some. congruence.
Qed.

(** ** Day counts in Russian *)

(** [pluralize_days] follows the Russian rule: "день" when the absolute
    value ends in 1 but not in 11, "дня" when it ends in 2, 3 or 4 but not
    in 12, 13 or 14, "дней" otherwise; the number is written with [str],
    so a negative count keeps its sign and takes the word of its absolute
    value. *)
Theorem pluralize_days_russian_rule (value : Z) :
  pluralize_days value =
    py_str value ++ " " ++
    (if (Z.abs value mod 10 =? 1) && negb (Z.abs value mod 100 =? 11) then "день"
     else if (2 <=? Z.abs value mod 10) && (Z.abs value mod 10 <=? 4)
             && negb ((12 <=? Z.abs value mod 100) && (Z.abs value mod 100 <=? 14))
     then "дня" else "дней").
Proof.
  unfold pluralize_days. f_equal. f_equal.
  assert (Hb : Z.abs value mod 10 = (Z.abs value mod 100) mod 10).
  { pose proof (Z.div_mod (Z.abs value) 100 ltac:(lia)) as D.
    rewrite D at 1. rewrite Z.add_comm.
    replace (100 * (Z.abs value / 100)) with ((10 * (Z.abs value / 100)) * 10) by lia.
    apply Z_mod_plus_full. }
  rewrite Hb.
  pose proof (Z.mod_pos_bound (Z.abs value) 100 ltac:(lia)) as Ha.
  generalize dependent (Z.abs value mod 100). intros a Ha.
  pose proof (Z.mod_pos_bound a 10 ltac:(lia)) as Hb'.
  pose proof (Z.div_mod a 10 ltac:(lia)) as Da.
  set (b := a mod 10) in *. set (q := a / 10) in *. clearbody b q.
  destruct (Z.leb_spec 11 a), (Z.leb_spec a 14), (Z.eqb_spec b 1), (Z.eqb_spec a 11),
    (Z.leb_spec 2 b), (Z.leb_spec b 4), (Z.leb_spec 12 a);
    cbn [andb negb]; try reflexivity; exfalso; nia.
Qed.

(** ** The weekly plan *)

Import PlanTable.

Lemma plan_fold_inr (user_id : Z) (plan : list plan_day) (e : sql_error) :
  fold_left (fun acc item =>
               match acc with
               | inl rs => insert_plan_row rs (row_of user_id item)
               | inr e => inr e
               end) plan (inr e) = inr e.
Proof. induction plan as [|it rest IH]; cbn; [reflexivity|exact IH]. Qed.

Lemma insert_plan_row_clash (rs : list plan_row) (r : plan_row) :
  existsb (fun r' => (pr_user_id r' =? pr_user_id r) && (pr_day_index r' =? pr_day_index r)) rs = true <->
  exists r', In r' rs /\ pr_user_id r' = pr_user_id r /\ pr_day_index r' = pr_day_index r.
Proof.
  rewrite existsb_exists. split.
  - intros [r' [I E]]. apply andb_true_iff in E as [E1 E2].
    apply Z.eqb_eq in E1, E2. eauto.
  - intros [r' [I [E1 E2]]]. exists r'. split; [exact I|]. rewrite E1, E2, !Z.eqb_refl. reflexivity.
Qed.

Lemma plan_fold_ok (user_id : Z) (plan : list plan_day) :
  forall rs : list plan_row,
    List.NoDup (map day_index plan) ->
    (forall r, In r rs -> pr_user_id r = user_id -> ~ In (pr_day_index r) (map day_index plan)) ->
    fold_left (fun acc item =>
                 match acc with
                 | inl rs => insert_plan_row rs (row_of user_id item)
                 | inr e => inr e
                 end) plan (inl rs) = inl (rs ++ map (row_of user_id) plan)%list.
Proof.
  induction plan as [|it rest IH]; intros rs Hnd Hfree; cbn [fold_left map].
  - rewrite app_nil_r. reflexivity.
  - apply NoDup_cons_iff in Hnd as [Hit Hnd].
    unfold insert_plan_row at 2.
    destruct (existsb _ rs) eqn:E.
    + exfalso. apply insert_plan_row_clash in E as [r [I [E1 E2]]].
      apply (Hfree r I E1). rewrite E2. left. reflexivity.
    + rewrite IH; [rewrite <- app_assoc; reflexivity|exact Hnd|].
      intros r I U. apply in_app_or in I as [I|[<-|[]]].
      * intros Hin. apply (Hfree r I U). right. exact Hin.
      * exact Hit.
Qed.

Lemma plan_fold_dup (user_id : Z) (plan : list plan_day) :
  forall rs : list plan_row,
    (~ List.NoDup (map day_index plan) \/
     exists r, In r rs /\ pr_user_id r = user_id /\ In (pr_day_index r) (map day_index plan)) ->
    fold_left (fun acc item =>
                 match acc with
                 | inl rs => insert_plan_row rs (row_of user_id item)
                 | inr e => inr e
                 end) plan (inl rs) = inr IntegrityError.
Proof.
  induction plan as [|it rest IH]; intros rs H; cbn [fold_left map].
  - exfalso. destruct H as [H|[r [_ [_ []]]]]. apply H. constructor.
  - unfold insert_plan_row at 2.
    destruct (existsb _ rs) eqn:E; [apply plan_fold_inr|].
    apply IH.
    assert (Nc : forall r, In r rs -> pr_user_id r = user_id -> pr_day_index r <> day_index it).
    { intros r I U D. assert (C : existsb (fun r' => (pr_user_id r' =? pr_user_id (row_of user_id it))
             && (pr_day_index r' =? pr_day_index (row_of user_id it))) rs = true)
        by (apply insert_plan_row_clash; exists r; auto).
      rewrite C in E. discriminate. }
    destruct H as [H|[r [I [U D]]]].
    + destruct (in_dec Z.eq_dec (day_index it) (map day_index rest)) as [Hin|Hout].
      * right. exists (row_of user_id it). split; [apply in_or_app; right; left; reflexivity|].
        split; reflexivity || exact Hin.
      * left. intros Hnd. apply H. constructor; assumption.
    + right. exists r. split; [apply in_or_app; left; exact I|]. split; [exact U|].
      destruct D as [D|D]; [|exact D]. exfalso. exact (Nc r I U (eq_sym D)).
Qed.

Lemma replace_plan_ok (user_id : Z) (plan : list plan_day) (rows : list plan_row) :
  List.NoDup (map day_index plan) ->
  replace_plan user_id plan rows =
    inl (List.filter (fun r => negb (pr_user_id r =? user_id)) rows ++ map (row_of user_id) plan)%list.
Proof.
  intros Hnd. unfold replace_plan. apply plan_fold_ok; [exact Hnd|].
  intros r I U. apply filter_In in I as [_ I]. rewrite U, Z.eqb_refl in I. discriminate.
Qed.

Lemma find_filter_none {A} (p q : A -> bool) (l : list A) :
  (forall x, p x = true -> q x = false) -> find p (List.filter q l) = None.
Proof.
  intros H. induction l as [|x r IH]; cbn; [reflexivity|].
  destruct (q x) eqn:Q; cbn; [|exact IH].
  destruct (p x) eqn:P; [|exact IH]. rewrite (H x P) in Q. discriminate.
Qed.

Lemma find_filter_irrel {A} (p q : A -> bool) (l : list A) :
  (forall x, p x = true -> q x = true) -> find p (List.filter q l) = find p l.
Proof.
  intros H. induction l as [|x r IH]; cbn; [reflexivity|].
  destruct (q x) eqn:Q; cbn.
  - destruct (p x); [reflexivity|exact IH].
  - destruct (p x) eqn:P; [|exact IH]. rewrite (H x P) in Q. discriminate.
Qed.

Lemma find_rows_of (user_id u day : Z) (plan : list plan_day) :
  find (fun r => (pr_user_id r =? u) && (pr_day_index r =? day)) (map (row_of user_id) plan) =
  if user_id =? u then option_map (row_of user_id) (find (fun it => day_index it =? day) plan)
  else None.
Proof.
  induction plan as [|it rest IH]; cbn; [destruct (user_id =? u); reflexivity|].
  rewrite IH. destruct (user_id =? u); cbn [andb]; [|reflexivity].
  destruct (day_index it =? day); reflexivity.
Qed.

Lemma plan_rows_length (user_id u : Z) (plan : list plan_day) :
  length (List.filter (fun r => pr_user_id r =? u) (map (row_of user_id) plan)) =
  if user_id =? u then length plan else O.
Proof.
  induction plan as [|it rest IH]; cbn; [destruct (user_id =? u); reflexivity|].
  destruct (user_id =? u); cbn; rewrite IH; reflexivity.
Qed.

Lemma filter_filter_irrel {A} (p q : A -> bool) (l : list A) :
  (forall x, p x = true -> q x = true) -> List.filter p (List.filter q l) = List.filter p l.
Proof.
  intros H. induction l as [|x r IH]; cbn; [reflexivity|].
  destruct (q x) eqn:Q; cbn.
  - destruct (p x); rewrite IH; reflexivity.
  - destruct (p x) eqn:P; [|exact IH]. rewrite (H x P) in Q. discriminate.
Qed.

Lemma filter_filter_none {A} (p q : A -> bool) (l : list A) :
  (forall x, p x = true -> q x = false) -> List.filter p (List.filter q l) = [].
Proof.
  intros H. induction l as [|x r IH]; cbn; [reflexivity|].
  destruct (q x) eqn:Q; cbn; [|exact IH].
  destruct (p x) eqn:P; [|exact IH]. rewrite (H x P) in Q. discriminate.
Qed.

Lemma find_app {A} (p : A -> bool) (l1 l2 : list A) :
  find p (l1 ++ l2) = match find p l1 with Some x => Some x | None => find p l2 end.
Proof. induction l1 as [|x r IH]; cbn; [reflexivity|]. destruct (p x); [reflexivity|exact IH]. Qed.

Lemma replace_plan_tables (user_id : Z) (plan : list plan_day) (rows : list plan_row) :
  List.NoDup (map day_index plan) ->
  exists rows', replace_plan user_id plan rows = inl rows' /\
    plan_length rows' user_id = Z.of_nat (length plan) /\
    (forall day, get_plan_day rows' user_id day =
       match find (fun it => day_index it =? day) plan with
       | None => None
       | Some it => if is_rest it then Some (true, [], title it)
                    else Some (false, exercises it, title it)
       end) /\
    (forall u, u <> user_id ->
       plan_length rows' u = plan_length rows u /\
       forall day, get_plan_day rows' u day = get_plan_day rows u day).
Proof.
  intros Hnd. eexists. split; [apply replace_plan_ok, Hnd|].
  split; [|split].
  - unfold plan_length. rewrite List.filter_app, length_app, plan_rows_length, Z.eqb_refl.
    rewrite filter_filter_none; [reflexivity|].
    intros r E. apply Z.eqb_eq in E. rewrite E, Z.eqb_refl. reflexivity.
  - intros day. unfold get_plan_day. rewrite find_app_none.
    + rewrite find_rows_of, Z.eqb_refl.
      destruct (find _ plan) as [it|]; reflexivity.
    + apply find_filter_none. intros r E. apply andb_true_iff in E as [E _].
      apply Z.eqb_eq in E. rewrite E, Z.eqb_refl. reflexivity.
  - intros u Hu. assert (Nu : (user_id =? u) = false) by (apply Z.eqb_neq; congruence).
    split.
    + unfold plan_length. rewrite List.filter_app, length_app, plan_rows_length, Nu, Nat.add_0_r.
      rewrite filter_filter_irrel; [reflexivity|].
      intros r E. apply Z.eqb_eq in E. subst u.
      destruct (pr_user_id r =? user_id) eqn:F; [|reflexivity].
      apply Z.eqb_eq in F. congruence.
    + intros day. unfold get_plan_day.
      rewrite find_app, find_rows_of, Nu.
      rewrite find_filter_irrel; [destruct (find _ rows); reflexivity|].
      intros r E. apply andb_true_iff in E as [E _]. apply Z.eqb_eq in E. subst u.
      destruct (pr_user_id r =? user_id) eqn:F; [|reflexivity].
      apply Z.eqb_eq in F. congruence.
Qed.

(** [replace_plan] fails with [IntegrityError] exactly when two items of
    the new plan share a [day_index]; the user's old rows, deleted first,
    never clash with the new ones, and the rows of other users play no
    part. *)
Theorem replace_plan_rejects_repeated_days (user_id : Z) (plan : list plan_day) (rows : list plan_row) :
  replace_plan user_id plan rows = inr IntegrityError <-> ~ List.NoDup (map day_index plan).
Proof.
  split.
  - intros E Hnd. rewrite (replace_plan_ok user_id plan rows Hnd) in E. discriminate.
  - intros Hd. unfold replace_plan. apply plan_fold_dup. left. exact Hd.
Qed.

(** When the items of the new plan have distinct [day_index]es,
    [replace_plan] succeeds; afterwards [plan_length] of the user is the
    number of items, [get_plan_day] for a day returns the first item with
    that index (a rest item as [(True, [], title)], any other as
    [(False, exercises, title)]) or [None] when there is none, and the plan
    of every other user is unchanged. *)
Theorem replace_plan_then_get_plan_day (user_id : Z) (plan : list plan_day) (rows : list plan_row)
    (Hnd : List.NoDup (map day_index plan)) :
  exists rows', replace_plan user_id plan rows = inl rows' /\
    plan_length rows' user_id = Z.of_nat (length plan) /\
    (forall day, get_plan_day rows' user_id day =
       match find (fun it => day_index it =? day) plan with
       | None => None
       | Some it => if is_rest it then Some (true, [], title it)
                    else Some (false, exercises it, title it)
       end) /\
    (forall u, u <> user_id ->
       plan_length rows' u = plan_length rows u /\
       forall day, get_plan_day rows' u day = get_plan_day rows u day).
Proof. exact (replace_plan_tables user_id plan rows Hnd). Qed.

(** After a successful [replace_plan] with a non-empty plan whose day
    indexes lie in [1..len(plan)], [get_plan_for_date] finds a plan for
    every date, before or after the start date: the item whose index is
    [(target - start) % len(plan) + 1]. *)
Theorem replace_plan_covers_every_date (user_id : Z) (plan : list plan_day)
    (rows rows' : list plan_row) (t : Z) (start : option Z)
    (Hok : replace_plan user_id plan rows = inl rows')
    (Hrange : forall it, In it plan -> 1 <= day_index it <= Z.of_nat (length plan))
    (Hne : plan <> []) :
  exists it, In it plan /\
    day_index it = (t - match start with Some s => s | None => t end) mod Z.of_nat (length plan) + 1 /\
    get_plan_for_date rows' user_id t start =
      Some (if is_rest it then (true, [], title it) else (false, exercises it, title it)).
Proof.
  assert (Hnd : List.NoDup (map day_index plan)).
  { destruct (ListDec.NoDup_dec Z.eq_dec (map day_index plan)) as [H|H]; [exact H|].
    exfalso. unfold replace_plan in Hok. rewrite plan_fold_dup in Hok by (left; exact H).
    discriminate. }
  destruct (replace_plan_tables user_id plan rows Hnd) as [r2 [E [L [G _]]]].
  rewrite Hok in E. injection E as <-.
  assert (Hn : 0 < Z.of_nat (length plan)) by (destruct plan; [congruence|cbn; lia]).
  set (st := match start with Some s => s | None => t end).
  set (i := (t - st) mod Z.of_nat (length plan) + 1).
  assert (Hi : 1 <= i <= Z.of_nat (length plan))
    by (pose proof (Z.mod_pos_bound (t - st) (Z.of_nat (length plan)) Hn); unfold i; lia).
  assert (Hin : In i (map day_index plan)).
  { apply (List.NoDup_length_incl (l' := map Z.of_nat (seq 1 (length plan))) Hnd).
    - rewrite !length_map, length_seq. lia.
    - intros x Hx. apply in_map_iff in Hx as [it [<- Hit]].
      apply Hrange in Hit. apply in_map_iff. exists (Z.to_nat (day_index it)).
      split; [lia|]. apply in_seq. lia.
    - apply in_map_iff. exists (Z.to_nat i). split; [lia|]. apply in_seq. lia. }
  destruct (find (fun it => day_index it =? i) plan) as [it|] eqn:F.
  - pose proof (find_some _ _ F) as [Hit Hd]. apply Z.eqb_eq in Hd.
    exists it. split; [exact Hit|]. split; [exact Hd|].
    unfold get_plan_for_date. rewrite L.
    destruct (Z.eqb_spec (Z.of_nat (length plan)) 0); [lia|].
    fold st. fold i. rewrite G, F. destruct (is_rest it); reflexivity.
  - exfalso. apply in_map_iff in Hin as [it [Hd Hit]].
    pose proof (find_none _ _ F it Hit) as N. cbn beta in N. rewrite Hd, Z.eqb_refl in N.
    discriminate.
Qed.

(** [get_plan_for_date] repeats with the length of the user's plan as its
    period, on both sides of the start date; without a start date every
    date gets day 1, and with no plan rows every date gets [None], with
    or without a start date. *)
Theorem get_plan_for_date_cycles (rows : list plan_row) (user_id t s k : Z)
    (start : option Z) :
  get_plan_for_date rows user_id (t + k * plan_length rows user_id) (Some s) =
    get_plan_for_date rows user_id t (Some s) /\
  get_plan_for_date rows user_id t None =
    (if plan_length rows user_id =? 0 then None else get_plan_day rows user_id 1) /\
  (plan_length rows user_id = 0 -> get_plan_for_date rows user_id t start = None).
Proof.
  unfold get_plan_for_date.
  destruct (Z.eqb_spec (plan_length rows user_id) 0) as [Z0|Z0];
    [split; [|split]; reflexivity|].
  split; [|split; [|intros; contradiction]].
  - replace (t + k * plan_length rows user_id - s)
      with (t - s + k * plan_length rows user_id) by ring.
    rewrite Z_mod_plus_full. reflexivity.
  - rewrite Z.sub_diag, Z.mod_0_l by exact Z0. reflexivity.
Qed.

(** * Witnesses of the further properties *)

(** [get_plan_for_date_cycles] on the sample plan (two periods ahead) and
    on an empty plan table with a start date. *)
Lemma get_plan_for_date_cycles_witness :
  get_plan_for_date sample_plan_rows 1 (10 + 2 * plan_length sample_plan_rows 1) (Some 3) =
    get_plan_for_date sample_plan_rows 1 10 (Some 3) /\
  (plan_length [] 1 = 0 /\ get_plan_for_date [] 1 10 (Some 3) = None).
Proof.
  split; [exact (proj1 (get_plan_for_date_cycles sample_plan_rows 1 10 3 2 None))|].
  split; [reflexivity|].
  exact (proj2 (proj2 (get_plan_for_date_cycles [] 1 10 3 0 (Some 3))) eq_refl).
Defined.

(** [handle_exercise_callback_read_only] on a stale keyboard: index 5 of
    the two-exercise main session of [sample_log]. *)
Lemma handle_exercise_callback_read_only_witness :
  let w := sample_world {[ (7, 100) := sample_log None 0 ]} in
  let cb := {| cb_session := "main"; cb_index := 5; cb_completed := true |} in
  (find (fun u => chat_id u =? 70) (users (db w)) = Some sample_user /\
   daily_logs (db w) !! (id sample_user, 100) = Some (sample_log None 0) /\
   cb_index cb <> -1 /\
   Z.of_nat (length (_log_exercises (Some (sample_log None 0)) (cb_session cb))) <= cb_index cb) /\
  db (snd (handle_exercise_callback 100 70 cb w)) = db w /\
  fst (handle_exercise_callback 100 70 cb w) = Raise IndexError.
Proof.
  intros w cb.
  assert (Hst : exists u l, find (fun u => chat_id u =? 70) (users (db w)) = Some u /\
                  daily_logs (db w) !! (id u, 100) = Some l /\ cb_index cb <> -1 /\
                  (cb_index cb < - Z.of_nat (length (_log_exercises (Some l) (cb_session cb))) \/
                   Z.of_nat (length (_log_exercises (Some l) (cb_session cb))) <= cb_index cb)).
  { exists sample_user, (sample_log None 0). split; [reflexivity|]. split; [reflexivity|].
    split; [discriminate|]. right. simpl. lia. }
  pose proof (handle_exercise_callback_read_only 100 70 cb w (or_intror Hst)) as [Hdb [_ Hraise]].
  split; [|split; [exact Hdb | exact (Hraise Hst)]].
  split; [reflexivity|]. split; [reflexivity|]. split; [discriminate|]. simpl. lia.
Defined.

Lemma upsert_user_keeps_chats_unique_witness :
  (forall u, chat_id (set_nickname (Some "x") u) = chat_id u) /\
  List.NoDup (map chat_id (users (db two_user_world))) /\
  (let us := users (db two_user_world) in
   let w' := snd (upsert_user 3 (set_nickname (Some "x")) two_user_world) in
   fst (upsert_user 3 (set_nickname (Some "x")) two_user_world) = Ok tt /\
   List.NoDup (map chat_id (users (db w'))) /\
   length (users (db w')) =
     (length us + if existsb (fun u => (chat_id u =? 3)%Z) us then 0 else 1)%nat /\
   fst (get_user 3 w') =
     Ok (Some (set_nickname (Some "x") match find (fun u => chat_id u =? 3) us with
                 | Some u => u
                 | None => {| id := next_user_id (db two_user_world); chat_id := 3;
                              nickname := None; weight := None; height := None; age := None |}
                 end)) /\
   daily_logs (db w') = daily_logs (db two_user_world)).
Proof.
  assert (Hf : forall u, chat_id (set_nickname (Some "x") u) = chat_id u) by reflexivity.
  assert (Hnd : List.NoDup (map chat_id (users (db two_user_world)))).
  { cbn. constructor; [cbn; intuition discriminate|]. constructor; [cbn; tauto|]. constructor. }
  split; [exact Hf|]. split; [exact Hnd|].
  exact (upsert_user_keeps_chats_unique 3 (set_nickname (Some "x")) two_user_world Hf Hnd).
Defined.

Lemma start_respects_max_users_witness :
  Z.of_nat (length (users (db two_user_world))) <= MAX_USERS /\
  Z.of_nat (length (users (db (snd (start third_chat_profile two_user_world))))) <= MAX_USERS.
Proof.
  assert (H : Z.of_nat (length (users (db two_user_world))) <= MAX_USERS) by (vm_compute; intros H; discriminate).
  split; [exact H|]. exact (start_respects_max_users third_chat_profile two_user_world H).
Defined.

Lemma range_window_bounds_witness :
  range_window (PyStr "22:00") (PyStr "02:00") 1704070800 = Ok (1704146400, 1704160800) /\
  1704146400 < 1704160800 <= 1704146400 + DAY /\ 1704070800 < 1704160800 /\
  1704070800 / DAY <= 1704146400 / DAY <= 1704070800 / DAY + 1.
Proof.
  assert (H : range_window (PyStr "22:00") (PyStr "02:00") 1704070800
              = Ok (1704146400, 1704160800)) by (vm_compute; reflexivity).
  split; [exact H|]. exact (range_window_bounds _ _ _ _ _ H).
Defined.

(** [scheduler_one_job_per_chat] on a store that already holds a job for
    chat 1: re-arming chat 1 replaces that job in place (the ids stay
    [1; 2]), and so does the job firing and re-arming itself. *)
Lemma scheduler_one_job_per_chat_witness :
  List.NoDup (map job_id (jobs two_job_scheduler)) /\
  List.NoDup (map job_id (jobs (snd (_range_job 1 (PyStr "22:00") (PyStr "23:00") 1704103200
                                       (fun a _ => a) two_job_scheduler)))) /\
  map job_id (jobs (snd (_range_job 1 (PyStr "22:00") (PyStr "23:00") 1704103200
                           (fun a _ => a) two_job_scheduler))) = [1; 2] /\
  List.NoDup (map job_id (jobs (snd (fire chat1_range_job (Ok tt) 1704148200 (fun a _ => a)
                                       two_job_scheduler)))) /\
  map job_id (jobs (snd (fire chat1_range_job (Ok tt) 1704148200 (fun a _ => a)
                           two_job_scheduler))) = [2; 1].
Proof.
  assert (H : List.NoDup (map job_id (jobs two_job_scheduler))).
  { cbn. constructor; [cbn; intuition discriminate|]. constructor; [cbn; tauto|]. constructor. }
  destruct (scheduler_one_job_per_chat two_job_scheduler H) as [Hr [_ [_ Hf]]].
  split; [exact H|]. split; [apply Hr|]. split; [vm_compute; reflexivity|].
  split; [apply Hf|]. vm_compute. reflexivity.
Defined.

Lemma replace_plan_then_get_plan_day_witness :
  List.NoDup (map day_index sample_plan) /\
  exists rows', replace_plan 1 sample_plan sample_plan_rows = inl rows' /\
    plan_length rows' 1 = Z.of_nat (length sample_plan) /\
    (forall day, get_plan_day rows' 1 day =
       match find (fun it => day_index it =? day) sample_plan with
       | None => None
       | Some it => if is_rest it then Some (true, [], title it)
                    else Some (false, exercises it, title it)
       end) /\
    (forall u, u <> 1 ->
       plan_length rows' u = plan_length sample_plan_rows u /\
       forall day, get_plan_day rows' u day = get_plan_day sample_plan_rows u day).
Proof.
  assert (H : List.NoDup (map day_index sample_plan)).
  { cbn. constructor; [cbn; intuition discriminate|]. constructor; [cbn; tauto|]. constructor. }
  split; [exact H|]. exact (replace_plan_then_get_plan_day 1 sample_plan sample_plan_rows H).
Defined.

Lemma replace_plan_covers_every_date_witness :
  let rows' := (List.filter (fun r => negb (pr_user_id r =? 1)) sample_plan_rows
                ++ map (row_of 1) sample_plan)%list in
  replace_plan 1 sample_plan sample_plan_rows = inl rows' /\
  (forall it, In it sample_plan -> 1 <= day_index it <= Z.of_nat (length sample_plan)) /\
  sample_plan <> [] /\
  exists it, In it sample_plan /\
    day_index it = (100 - 97) mod Z.of_nat (length sample_plan) + 1 /\
    get_plan_for_date rows' 1 100 (Some 97) =
      Some (if is_rest it then (true, [], title it) else (false, exercises it, title it)).
Proof.
  intros rows'.
  assert (Hok : replace_plan 1 sample_plan sample_plan_rows = inl rows') by reflexivity.
  assert (Hr : forall it, In it sample_plan -> 1 <= day_index it <= Z.of_nat (length sample_plan))
    by (intros it [<-|[<-|[]]]; cbn; lia).
  assert (Hne : sample_plan <> []) by discriminate.
  split; [exact Hok|]. split; [exact Hr|]. split; [exact Hne|].
  exact (replace_plan_covers_every_date 1 sample_plan sample_plan_rows rows' 100 (Some 97) Hok Hr Hne).
Defined.
